(** * ROI calculator backend: lead scoring, validation and sanitization

    A shallow embedding of [src/utils/lead_scoring.py],
    [src/utils/validation.py] and [sanitize_input] of
    [src/utils/security.py], with the properties the specification states
    about them.

    The request body is a JSON object, so a submission is a finite map from
    field names to Python values ([gmap string value]).  Python exceptions
    are explicit: every operation that can raise returns a [res].  Strings
    are sequences of characters with code points below 256. *)

From Stdlib Require Import ZArith QArith Ascii String DecimalString List Bool Lia.
From stdpp Require Import gmap strings list fin_maps.

#[local] Set Warnings "-register-all".
#[local] Open Scope Z_scope.

(** ** Python values *)

(** A Python [float]: a finite double given by its exact rational value,
    an infinity ([FInf true] is the negative one) or NaN. *)
Inductive pyfloat :=
| FFin (q : Q)
| FInf (neg : bool)
| FNan.

(** The values a JSON body can hold. *)
Inductive value :=
| VNone
| VBool (b : bool)
| VInt (n : Z)
| VFloat (f : pyfloat)
| VStr (s : string)
| VList (l : list value)
| VDict (d : gmap string value).

(** The exceptions the modelled code can raise. *)
Inductive exn := TypeError | ValueError | OverflowError.

Inductive res (A : Type) :=
| Ok (a : A)
| Raise (e : exn).
Arguments Ok {A} a.
Arguments Raise {A} e.

Definition bind {A B} (r : res A) (k : A -> res B) : res B :=
  match r with
  | Ok a => k a
  | Raise e => Raise e
  end.

Notation "'let*' x ':=' r 'in' k" := (bind r (fun x => k))
  (at level 10, x name, r at level 100, k at level 200).


(** ** Floats compared with integer constants

    Python compares a float with an int by exact value; every comparison
    with NaN is false. *)

Definition Qzero (q : Q) : bool := (Qnum q =? 0).

Definition flt_lt (f : pyfloat) (c : Z) : bool :=
  match f with
  | FFin q => negb (Qle_bool (inject_Z c) q)
  | FInf neg => neg
  | FNan => false
  end.

Definition flt_le (f : pyfloat) (c : Z) : bool :=
  match f with
  | FFin q => Qle_bool q (inject_Z c)
  | FInf neg => neg
  | FNan => false
  end.

Definition flt_gt (f : pyfloat) (c : Z) : bool :=
  match f with
  | FFin q => negb (Qle_bool q (inject_Z c))
  | FInf neg => negb neg
  | FNan => false
  end.

Definition flt_ge (f : pyfloat) (c : Z) : bool :=
  match f with
  | FFin q => Qle_bool (inject_Z c) q
  | FInf neg => negb neg
  | FNan => false
  end.

(** ** Truthiness: [bool(v)] *)

Definition truthy (v : value) : bool :=
  match v with
  | VNone => false
  | VBool b => b
  | VInt n => negb (n =? 0)
  | VFloat (FFin q) => negb (Qzero q)
  | VFloat _ => true
  | VStr s => negb (String.eqb s "")
  | VList l => match l with [] => false | _ => true end
  | VDict d => negb (bool_decide (d = ∅))
  end.

(** [data.get(key)] and [data.get(key, default)]. *)
Definition dict_get (data : gmap string value) (key : string) : value :=
  default VNone (data !! key).

Definition dict_get_or (data : gmap string value) (key : string) (dflt : value) : value :=
  default dflt (data !! key).

(** ** Characters and strings *)

Definition code (c : ascii) : Z := Z.of_N (N_of_ascii c).

Definition in_range (lo hi : Z) (c : ascii) : bool :=
  (lo <=? code c) && (code c <=? hi).

Definition is_digit (c : ascii) : bool := in_range 48 57 c.
Definition is_upper (c : ascii) : bool := in_range 65 90 c.
Definition is_lower (c : ascii) : bool := in_range 97 122 c.
Definition is_alpha (c : ascii) : bool := is_upper c || is_lower c.

(** [str.isspace] on code points below 256. *)
Definition is_space (c : ascii) : bool :=
  in_range 9 13 c || in_range 28 32 c || (code c =? 133) || (code c =? 160).

Definition to_lower (c : ascii) : ascii :=
  if is_upper c then ascii_of_N (N_of_ascii c + 32) else c.

Definition to_upper (c : ascii) : ascii :=
  if is_lower c then ascii_of_N (N_of_ascii c - 32) else c.

Fixpoint str_take (n : nat) (s : string) : string :=
  match n, s with
  | S n', String c r => String c (str_take n' r)
  | _, _ => EmptyString
  end.

Fixpoint str_filter (p : ascii -> bool) (s : string) : string :=
  match s with
  | EmptyString => EmptyString
  | String c r => if p c then String c (str_filter p r) else str_filter p r
  end.

Fixpoint lstrip (s : string) : string :=
  match s with
  | String c r => if is_space c then lstrip r else s
  | EmptyString => EmptyString
  end.

Fixpoint rstrip (s : string) : string :=
  match s with
  | EmptyString => EmptyString
  | String c r =>
      match rstrip r with
      | EmptyString => if is_space c then EmptyString else String c EmptyString
      | r' => String c r'
      end
  end.

(** [s.strip()] *)
Definition str_strip (s : string) : string := rstrip (lstrip s).

(** [s.replace(a, b)] for single characters. *)
Fixpoint str_replace (a b : ascii) (s : string) : string :=
  match s with
  | EmptyString => EmptyString
  | String c r => String (if Ascii.eqb c a then b else c) (str_replace a b r)
  end.

(** [s.title()]: a cased character is upper-cased when it follows an
    uncased one and lower-cased otherwise. *)
Fixpoint title_from (prev_cased : bool) (s : string) : string :=
  match s with
  | EmptyString => EmptyString
  | String c r =>
      String (if prev_cased then to_lower c else to_upper c)
             (title_from (is_alpha c) r)
  end.

Definition str_title (s : string) : string := title_from false s.

(** [field.replace("_", " ").title()] *)
Definition field_label (field : string) : string :=
  str_title (str_replace "_" " " field).

(** ** Numeric conversions: [float(v)] and [int(v)] *)

(** Nearest integer to [n/d] ([d > 0]), ties to even. *)
Definition round_half_even (n d : Z) : Z :=
  let q := n / d in
  match (2 * (n mod d)) ?= d with
  | Lt => q
  | Gt => q + 1
  | Eq => if Z.even q then q else q + 1
  end.

(** IEEE 754 binary64 rounding of the positive rational [n/d]: 53 bits of
    precision, exponents of the last bit between -1074 and 971. *)
Definition round_pos (n d : Z) : pyfloat :=
  let e0 := Z.log2 n - Z.log2 d in
  let below := if 0 <=? e0 then n <? d * 2 ^ e0 else n * 2 ^ (- e0) <? d in
  let e := if below then e0 - 1 else e0 in
  let u := Z.max (e - 52) (-1074) in
  if 0 <=? u then
    let m := round_half_even n (d * 2 ^ u) in
    if 2 ^ 1024 <=? m * 2 ^ u then FInf false else FFin (inject_Z (m * 2 ^ u))
  else
    let m := round_half_even (n * 2 ^ (- u)) d in
    FFin (Qred (m # Z.to_pos (2 ^ (- u)))).

Definition flt_neg (f : pyfloat) : pyfloat :=
  match f with
  | FFin q => FFin (Qopp q)
  | FInf neg => FInf (negb neg)
  | FNan => FNan
  end.

Definition round_double (n : Z) (d : positive) : pyfloat :=
  match n with
  | Z0 => FFin 0
  | Zpos _ => round_pos n (Zpos d)
  | Zneg _ => flt_neg (round_pos (- n) (Zpos d))
  end.

Definition digit_val (c : ascii) : option Z :=
  if is_digit c then Some (code c - 48) else None.

(** A run of decimal digits in which single underscores may separate
    digits.  [prev] tells whether the previous character was a digit;
    the result is the accumulated number, the count of digits read and
    the unread rest. *)
Fixpoint digits_from (prev : bool) (acc cnt : Z) (s : list ascii)
  : Z * Z * list ascii :=
  match s with
  | [] => (acc, cnt, [])
  | c :: r =>
      match digit_val c with
      | Some d => digits_from true (10 * acc + d) (cnt + 1) r
      | None =>
          if prev && Ascii.eqb c "_" then
            match r with
            | c' :: r' =>
                match digit_val c' with
                | Some d => digits_from true (10 * acc + d) (cnt + 1) r'
                | None => (acc, cnt, s)
                end
            | [] => (acc, cnt, s)
            end
          else (acc, cnt, s)
      end
  end.

(** An optional sign: [true] for a minus. *)
Definition read_sign (s : list ascii) : bool * list ascii :=
  match s with
  | c :: r =>
      if Ascii.eqb c "-" then (true, r)
      else if Ascii.eqb c "+" then (false, r)
      else (false, s)
  | [] => (false, [])
  end.

(** [int(s)] for a string: surrounding whitespace, an optional sign and
    decimal digits; [None] stands for [ValueError]. *)
Definition parse_int (s : string) : option Z :=
  let '(neg, r) := read_sign (list_ascii_of_string (str_strip s)) in
  match digits_from false 0 0 r with
  | (n, cnt, []) => if 0 <? cnt then Some (if neg then - n else n) else None
  | _ => None
  end.

Definition lower_str (l : list ascii) : string :=
  string_of_list_ascii (to_lower <$> l).

(** The exponent part of a float literal. *)
Definition read_exponent (s : list ascii) : option Z :=
  match s with
  | [] => Some 0
  | c :: r =>
      if Ascii.eqb (to_lower c) "e" then
        let '(neg, r1) := read_sign r in
        match digits_from false 0 0 r1 with
        | (n, cnt, []) => if 0 <? cnt then Some (if neg then - n else n) else None
        | _ => None
        end
      else None
  end.

(** [float(s)] for a string: surrounding whitespace, an optional sign,
    then [inf], [infinity], [nan] (any case) or a decimal literal, rounded
    to the nearest double; [None] stands for [ValueError]. *)
Definition parse_float (s : string) : option pyfloat :=
  let '(neg, r) := read_sign (list_ascii_of_string (str_strip s)) in
  let sgn f := if neg then flt_neg f else f in
  let w := lower_str r in
  if String.eqb w "inf" || String.eqb w "infinity" then Some (sgn (FInf false))
  else if String.eqb w "nan" then Some FNan
  else
    let '(m1, c1, r1) := digits_from false 0 0 r in
    let '(m, cf, r2) :=
      match r1 with
      | c :: r1' =>
          if Ascii.eqb c "." then
            let '(m2, c2, r2) := digits_from false m1 0 r1' in (m2, c2, r2)
          else (m1, 0, r1)
      | [] => (m1, 0, r1)
      end in
    if 0 <? c1 + cf then
      match read_exponent r2 with
      | Some ex =>
          let p := ex - cf in
          Some (sgn (if 0 <=? p then round_double (m * 10 ^ p) 1
                     else round_double m (Z.to_pos (10 ^ (- p)))))
      | None => None
      end
    else None.

(** [float(v)] *)
Definition py_float (v : value) : res pyfloat :=
  match v with
  | VNone => Raise TypeError
  | VBool b => Ok (FFin (if b then 1 else 0)%Q)
  | VInt n =>
      match round_double n 1 with
      | FFin q => Ok (FFin q)
      | _ => Raise OverflowError
      end
  | VFloat f => Ok f
  | VStr s =>
      match parse_float s with
      | Some f => Ok f
      | None => Raise ValueError
      end
  | VList _ | VDict _ => Raise TypeError
  end.

(** [int(v)]: a float is truncated towards zero. *)
Definition py_int (v : value) : res Z :=
  match v with
  | VNone => Raise TypeError
  | VBool b => Ok (if b then 1 else 0)
  | VInt n => Ok n
  | VFloat (FFin q) => Ok (Z.quot (Qnum q) (Zpos (Qden q)))
  | VFloat (FInf _) => Raise OverflowError
  | VFloat FNan => Raise ValueError
  | VStr s =>
      match parse_int s with
      | Some n => Ok n
      | None => Raise ValueError
      end
  | VList _ | VDict _ => Raise TypeError
  end.

(** ** Lead scoring ([src/utils/lead_scoring.py]) *)

(** [table.get(key, 0)] on a dictionary with string keys: an unhashable
    key (a list or a dict) raises [TypeError]; a key of another type is
    never equal to a string. *)
Definition table_get (table : gmap string Z) (key : value) : res Z :=
  match key with
  | VStr s => Ok (default 0 (table !! s))
  | VList _ | VDict _ => Raise TypeError
  | _ => Ok 0
  end.

Definition size_scores : gmap string Z :=
  list_to_map
    [("1-10", 5); ("11-50", 10); ("51-200", 15); ("201-1000", 12);
     ("1000+", 8)]%string.

Definition industry_scores : gmap string Z :=
  list_to_map
    [("E-commerce", 15); ("SaaS", 12); ("Retail", 12); ("Technology", 10);
     ("Marketing", 10); ("Healthcare", 8); ("Finance", 8); ("Education", 6);
     ("Real Estate", 6); ("Manufacturing", 4); ("Consulting", 4);
     ("Other", 2)]%string.

Definition stage_scores : gmap string Z :=
  list_to_map
    [("Growth", 10); ("Established", 8); ("Startup", 6);
     ("Enterprise", 4)]%string.

Definition calculate_demographic_score (data : gmap string value) : res Z :=
  let score := 0 in
  let company_size := dict_get_or data "company_size" (VStr "") in
  let* pts := table_get size_scores company_size in
  let score := score + pts in
  let industry := dict_get_or data "industry" (VStr "") in
  let* pts := table_get industry_scores industry in
  let score := score + pts in
  let business_stage := dict_get_or data "business_stage" (VStr "") in
  let* pts := table_get stage_scores business_stage in
  let score := score + pts in
  let score := if truthy (dict_get data "website") then score + 10 else score in
  Ok score.

Definition revenue_points (monthly_revenue : pyfloat) : Z :=
  if flt_ge monthly_revenue 100000 then 25
  else if flt_ge monthly_revenue 50000 then 20
  else if flt_ge monthly_revenue 25000 then 15
  else if flt_ge monthly_revenue 10000 then 10
  else if flt_ge monthly_revenue 5000 then 5
  else 0.

Definition orders_points (monthly_orders : Z) : Z :=
  if monthly_orders >=? 1000 then 15
  else if monthly_orders >=? 500 then 12
  else if monthly_orders >=? 200 then 8
  else if monthly_orders >=? 50 then 4
  else 0.

Definition aov_points (aov : pyfloat) : Z :=
  if flt_ge aov 200 then 10
  else if flt_ge aov 100 then 8
  else if flt_ge aov 50 then 5
  else if flt_ge aov 25 then 2
  else 0.

Definition calculate_behavioral_score (data : gmap string value) : res Z :=
  let score := 0 in
  let* monthly_revenue := py_float (dict_get_or data "monthly_revenue" (VInt 0)) in
  let score := score + revenue_points monthly_revenue in
  let* monthly_orders := py_int (dict_get_or data "monthly_orders" (VInt 0)) in
  let score := score + orders_points monthly_orders in
  let* aov := py_float (dict_get_or data "average_order_value" (VInt 0)) in
  let score := score + aov_points aov in
  Ok score.

Definition conversion_points (conversion_rate : pyfloat) : Z :=
  if flt_gt conversion_rate 0 then
    if flt_lt conversion_rate 2 then 15
    else if flt_lt conversion_rate 3 then 12
    else if flt_lt conversion_rate 5 then 8
    else if flt_lt conversion_rate 8 then 4
    else 0
  else 0.

Definition abandonment_points (abandonment_rate : pyfloat) : Z :=
  if flt_gt abandonment_rate 0 then
    if flt_gt abandonment_rate 70 then 15
    else if flt_gt abandonment_rate 60 then 12
    else if flt_gt abandonment_rate 50 then 8
    else if flt_gt abandonment_rate 40 then 4
    else 0
  else 0.

Definition manual_hours_points (manual_hours : Z) : Z :=
  if manual_hours >=? 20 then 10
  else if manual_hours >=? 10 then 7
  else if manual_hours >=? 5 then 4
  else if manual_hours >=? 1 then 1
  else 0.

Definition ad_spend_points (ad_spend : pyfloat) : Z :=
  if flt_ge ad_spend 10000 then 10
  else if flt_ge ad_spend 5000 then 8
  else if flt_ge ad_spend 2000 then 5
  else if flt_ge ad_spend 500 then 2
  else 0.

Definition calculate_fit_score (data : gmap string value) : res Z :=
  let score := 0 in
  let* conversion_rate := py_float (dict_get_or data "conversion_rate" (VInt 0)) in
  let score := score + conversion_points conversion_rate in
  let* abandonment_rate := py_float (dict_get_or data "cart_abandonment_rate" (VInt 0)) in
  let score := score + abandonment_points abandonment_rate in
  let* manual_hours := py_int (dict_get_or data "manual_hours_per_week" (VInt 0)) in
  let score := score + manual_hours_points manual_hours in
  let* ad_spend := py_float (dict_get_or data "monthly_ad_spend" (VInt 0)) in
  let score := score + ad_spend_points ad_spend in
  Ok score.

Definition calculate_lead_score (data : gmap string value) : res Z :=
  let score := 0 in
  let* d := calculate_demographic_score data in
  let score := score + d in
  let* b := calculate_behavioral_score data in
  let score := score + b in
  let* f := calculate_fit_score data in
  let score := score + f in
  let score := Z.max 0 (Z.min 150 score) in
  Ok score.

Definition assign_tier (lead_score : Z) : string :=
  if lead_score >=? 100 then "Hot"
  else if lead_score >=? 60 then "Warm"
  else "Cold".

(** ** Regular expressions

    The three patterns of the validator, as regular expressions over
    character classes, matched with derivatives. *)

Inductive regex :=
| RNull
| REps
| RClass (p : ascii -> bool)
| RCat (r1 r2 : regex)
| RAlt (r1 r2 : regex)
| RStar (r : regex).

Fixpoint nullable (r : regex) : bool :=
  match r with
  | RNull => false
  | REps => true
  | RClass _ => false
  | RCat r1 r2 => nullable r1 && nullable r2
  | RAlt r1 r2 => nullable r1 || nullable r2
  | RStar _ => true
  end.

Fixpoint deriv (c : ascii) (r : regex) : regex :=
  match r with
  | RNull => RNull
  | REps => RNull
  | RClass p => if p c then REps else RNull
  | RCat r1 r2 =>
      if nullable r1 then RAlt (RCat (deriv c r1) r2) (deriv c r2)
      else RCat (deriv c r1) r2
  | RAlt r1 r2 => RAlt (deriv c r1) (deriv c r2)
  | RStar r1 => RCat (deriv c r1) (RStar r1)
  end.

Fixpoint fullmatch (r : regex) (s : string) : bool :=
  match s with
  | EmptyString => nullable r
  | String c s' => fullmatch (deriv c r) s'
  end.

Definition RPlus (r : regex) : regex := RCat r (RStar r).
Definition ROpt (r : regex) : regex := RAlt REps r.
Definition RChr (c : ascii) : regex := RClass (Ascii.eqb c).

Fixpoint RLit (s : string) : regex :=
  match s with
  | EmptyString => REps
  | String c s' => RCat (RChr c) (RLit s')
  end.

(** The string without its final newline, when it ends with one. *)
Fixpoint chop_newline (s : string) : option string :=
  match s with
  | EmptyString => None
  | String c EmptyString => if code c =? 10 then Some EmptyString else None
  | String c r => String c <$> chop_newline r
  end.

(** [re.match] of a pattern anchored at both ends: the end anchor
    matches at the end of the string and just before a final newline; a
    subject that is not a string raises [TypeError]. *)
Definition re_match (r : regex) (v : value) : res bool :=
  match v with
  | VStr s =>
      Ok (fullmatch r s
          || match chop_newline s with
             | Some s' => fullmatch r s'
             | None => false
             end)
  | _ => Raise TypeError
  end.

Definition is_alnum (c : ascii) : bool := is_alpha c || is_digit c.

Definition one_of (chars : string) (c : ascii) : bool :=
  existsb (Ascii.eqb c) (list_ascii_of_string chars).

(** The email pattern: one or more of letters, digits and . _ % + -,
    an at sign, one or more of letters, digits, dot and hyphen, a dot,
    and two or more letters. *)
Definition email_pattern : regex :=
  RCat (RPlus (RClass (fun c => is_alnum c || one_of "._%+-" c)))
    (RCat (RChr "@")
      (RCat (RPlus (RClass (fun c => is_alnum c || one_of ".-" c)))
        (RCat (RChr ".")
          (RCat (RClass is_alpha) (RPlus (RClass is_alpha)))))).

(** The name pattern: one or more letters, whitespace characters,
    apostrophes (39) or hyphens. *)
Definition name_pattern : regex :=
  RPlus (RClass (fun c => is_alpha c || is_space c || (code c =? 39) || one_of "-" c)).

(** The website pattern: http or https, a colon and two slashes, one or
    more of letters, digits, dot and hyphen, a dot, two or more letters,
    and optionally a slash followed by any characters but newlines. *)
Definition website_pattern : regex :=
  RCat (RLit "http")
    (RCat (ROpt (RChr "s"))
      (RCat (RLit "://")
        (RCat (RPlus (RClass (fun c => is_alnum c || one_of ".-" c)))
          (RCat (RChr ".")
            (RCat (RClass is_alpha)
              (RCat (RPlus (RClass is_alpha))
                (ROpt (RCat (RChr "/")
                        (RStar (RClass (fun c => negb (code c =? 10)))))))))))).

(** ** Validation ([src/utils/validation.py]) *)

Abbreviation errmap := (gmap string string).

(** [len(v)] *)
Definition py_len (v : value) : res Z :=
  match v with
  | VStr s => Ok (Z.of_nat (String.length s))
  | VList l => Ok (Z.of_nat (List.length l))
  | VDict d => Ok (Z.of_nat (size d))
  | _ => Raise TypeError
  end.

(** [v in options] for a list of strings. *)
Definition in_options (v : value) (options : list string) : bool :=
  match v with
  | VStr s => existsb (String.eqb s) options
  | _ => false
  end.

(** Decimal digits of a number, grouped in threes from the right by
    commas: the [:,] format. *)
Fixpoint group3 (k : nat) (rev_digits : list ascii) : list ascii :=
  match rev_digits with
  | [] => []
  | c :: r =>
      match k with
      | 3%nat => "," :: c :: group3 1 r
      | _ => c :: group3 (S k) r
      end
  end%char.

Definition format_thousands (n : Z) : string :=
  string_of_list_ascii
    (rev (group3 0 (rev (list_ascii_of_string
                           (NilZero.string_of_int (Z.to_int n)))))).

(** Run [body] for each element of [l], threading the error map and
    stopping at the first exception. *)
Fixpoint for_each {A S} (body : A -> S -> res S) (l : list A) (s : S) : res S :=
  match l with
  | [] => Ok s
  | a :: l' => let* s' := body a s in for_each body l' s'
  end.

Definition required_fields : list string :=
  ["first_name"; "last_name"; "email"; "monthly_revenue";
   "average_order_value"; "monthly_orders"]%string.

Definition check_required (data : gmap string value) (field : string)
    (errors : errmap) : res errmap :=
  let v := dict_get data field in
  if negb (truthy v) then
    Ok (<[field := field_label field +:+ " is required"]> errors)
  else
    match v with
    | VStr s =>
        if String.eqb (str_strip s) "" then
          Ok (<[field := field_label field +:+ " cannot be empty"]> errors)
        else Ok errors
    | _ => Ok errors
    end.

Definition check_email (data : gmap string value) (errors : errmap) : res errmap :=
  if truthy (dict_get data "email") then
    let* m := re_match email_pattern (dict_get data "email") in
    if negb m then
      Ok (<["email" := "Please enter a valid email address"]> errors)
    else Ok errors
  else Ok errors.

Definition check_name (data : gmap string value) (name_field : string)
    (errors : errmap) : res errmap :=
  let v := dict_get data name_field in
  if truthy v then
    let* n := py_len v in
    if n <? 2 then
      Ok (<[name_field := field_label name_field +:+ " must be at least 2 characters"]> errors)
    else if n >? 50 then
      Ok (<[name_field := field_label name_field +:+ " must be less than 50 characters"]> errors)
    else
      let* m := re_match name_pattern v in
      if negb m then
        Ok (<[name_field := field_label name_field +:+ " contains invalid characters"]> errors)
      else Ok errors
  else Ok errors.

Definition financial_fields : list (string * (Z * Z)) :=
  [("monthly_revenue", (1000, 10000000));
   ("average_order_value", (1, 100000));
   ("monthly_orders", (1, 1000000))]%string.

Definition check_financial (data : gmap string value)
    (fc : string * (Z * Z)) (errors : errmap) : res errmap :=
  let '(field, (cmin, cmax)) := fc in
  if truthy (dict_get data field) then
    match py_float (dict_get data field) with
    | Ok value =>
        if flt_lt value cmin then
          Ok (<[field := field_label field +:+ " must be at least $"
                         +:+ format_thousands cmin]> errors)
        else if flt_gt value cmax then
          Ok (<[field := field_label field +:+ " cannot exceed $"
                         +:+ format_thousands cmax]> errors)
        else Ok errors
    | Raise ValueError | Raise TypeError =>
        Ok (<[field := field_label field +:+ " must be a valid number"]> errors)
    | Raise e => Raise e
    end
  else Ok errors.

(** [re.sub] deleting every non-digit of [v]. *)
Definition digits_only (v : value) : res string :=
  match v with
  | VStr s => Ok (str_filter is_digit s)
  | _ => Raise TypeError
  end.

Definition check_phone (data : gmap string value) (errors : errmap) : res errmap :=
  if truthy (dict_get data "phone") then
    let* phone_clean := digits_only (dict_get data "phone") in
    let n := Z.of_nat (String.length phone_clean) in
    if (n <? 10) || (n >? 15) then
      Ok (<["phone" := "Please enter a valid phone number"]> errors)
    else Ok errors
  else Ok errors.

Definition check_website (data : gmap string value) (errors : errmap) : res errmap :=
  if truthy (dict_get data "website") then
    let* m := re_match website_pattern (dict_get data "website") in
    if negb m then
      Ok (<["website" := "Please enter a valid website URL (include http:// or https://)"]> errors)
    else Ok errors
  else Ok errors.

Definition check_company (data : gmap string value) (errors : errmap) : res errmap :=
  if truthy (dict_get data "company") then
    let* n := py_len (dict_get data "company") in
    if n >? 100 then
      Ok (<["company" := "Company name must be less than 100 characters"]> errors)
    else Ok errors
  else Ok errors.

Definition valid_industries : list string :=
  ["E-commerce"; "SaaS"; "Healthcare"; "Finance"; "Education";
   "Real Estate"; "Manufacturing"; "Retail"; "Technology";
   "Consulting"; "Marketing"; "Other"]%string.

Definition valid_stages : list string :=
  ["Startup"; "Growth"; "Established"; "Enterprise"]%string.

Definition valid_sizes : list string :=
  ["1-10"; "11-50"; "51-200"; "201-1000"; "1000+"]%string.

Definition check_choice (data : gmap string value) (field : string)
    (options : list string) (message : string) (errors : errmap) : errmap :=
  if truthy (dict_get data field) && negb (in_options (dict_get data field) options)
  then <[field := message]> errors
  else errors.

Definition percentage_fields : list string :=
  ["conversion_rate"; "cart_abandonment_rate"]%string.

Definition check_percentage (data : gmap string value) (field : string)
    (errors : errmap) : res errmap :=
  if truthy (dict_get data field) then
    match py_float (dict_get data field) with
    | Ok value =>
        if flt_lt value 0 || flt_gt value 100 then
          Ok (<[field := field_label field +:+ " must be between 0 and 100"]> errors)
        else Ok errors
    | Raise ValueError | Raise TypeError =>
        Ok (<[field := field_label field +:+ " must be a valid percentage"]> errors)
    | Raise e => Raise e
    end
  else Ok errors.

(** The returned dictionary: [valid] is [len(errors) == 0]. *)
Record validation_result := {
  valid : bool;
  errors : errmap
}.

Definition make_result (errs : errmap) : validation_result :=
  {| valid := bool_decide (size errs = 0%nat); errors := errs |}.

Definition validate_roi_submission (data : gmap string value)
  : res validation_result :=
  let errors : errmap := ∅ in
  let* errors := for_each (check_required data) required_fields errors in
  let* errors := check_email data errors in
  let* errors := for_each (check_name data) ["first_name"; "last_name"]%string errors in
  let* errors := for_each (check_financial data) financial_fields errors in
  let* errors := check_phone data errors in
  let* errors := check_website data errors in
  let* errors := check_company data errors in
  let errors := check_choice data "industry" valid_industries
                  "Please select a valid industry" errors in
  let errors := check_choice data "business_stage" valid_stages
                  "Please select a valid business stage" errors in
  let errors := check_choice data "company_size" valid_sizes
                  "Please select a valid company size" errors in
  let* errors := for_each (check_percentage data) percentage_fields errors in
  Ok (make_result errors).

Definition validate_calculation_data (data : gmap string value)
  : res validation_result :=
  let errors : errmap := ∅ in
  let* errors :=
    if negb (truthy (dict_get data "monthly_revenue")) then
      Ok (<["monthly_revenue" := "Monthly revenue is required for calculations"]> errors)
    else
      match py_float (dict_get data "monthly_revenue") with
      | Ok value =>
          if flt_le value 0 then
            Ok (<["monthly_revenue" := "Monthly revenue must be greater than 0"]> errors)
          else if flt_gt value 10000000 then
            Ok (<["monthly_revenue" := "Monthly revenue seems unusually high"]> errors)
          else Ok errors
      | Raise ValueError | Raise TypeError =>
          Ok (<["monthly_revenue" := "Monthly revenue must be a valid number"]> errors)
      | Raise e => Raise e
      end in
  Ok (make_result errors).

(** ** Sanitization *)

(** The characters deleted by the sanitizers: the two angle brackets
    (60, 62), the double quote (34) and the apostrophe (39). *)
Definition dangerous (c : ascii) : bool :=
  (code c =? 60) || (code c =? 62) || (code c =? 34) || (code c =? 39).

Definition strip_dangerous (s : string) : string :=
  str_filter (fun c => negb (dangerous c)) s.

(** [sanitize_input] of [src/utils/security.py]. *)
Fixpoint sanitize_input (data : value) : value :=
  match data with
  | VDict d => VDict (sanitize_input <$> d)
  | VList l => VList (sanitize_input <$> l)
  | VStr s => VStr (str_take 1000 (strip_dangerous s))
  | _ => data
  end.

Definition field_limit (key : string) : nat :=
  if existsb (String.eqb key) ["first_name"; "last_name"]%string then 50
  else if String.eqb key "email" then 255
  else if existsb (String.eqb key) ["company"; "website"]%string then 200
  else if String.eqb key "phone" then 20
  else 500.

Definition sanitize_field (key : string) (v : value) : value :=
  match v with
  | VStr s => VStr (str_take (field_limit key) (str_strip (strip_dangerous s)))
  | _ => v
  end.

(** [sanitize_form_data] of [src/utils/validation.py]. *)
Definition sanitize_form_data (data : gmap string value) : gmap string value :=
  map_imap (fun key v => Some (sanitize_field key v)) data.

(** ** Predicates used in the statements *)

(** A value that can be used as a dictionary key. *)
Definition hashable (v : value) : bool :=
  match v with
  | VList _ | VDict _ => false
  | _ => true
  end.



Definition clamp (lo hi x : Z) : Z := Z.max lo (Z.min hi x).

(** The order Cold < Warm < Hot. *)
Definition tier_rank (tier : string) : Z :=
  if String.eqb tier "Hot" then 2
  else if String.eqb tier "Warm" then 1
  else 0.

(** The two scenario inputs of the specification. *)
Definition scenario_full : gmap string value :=
  list_to_map
    [("company_size", VStr "51-200"); ("industry", VStr "E-commerce");
     ("business_stage", VStr "Growth"); ("website", VStr "http://x.com");
     ("monthly_revenue", VInt 150000); ("monthly_orders", VInt 1200);
     ("average_order_value", VInt 250);
     ("conversion_rate", VFloat (FFin (3 # 2)));
     ("cart_abandonment_rate", VInt 75);
     ("manual_hours_per_week", VInt 25);
     ("monthly_ad_spend", VInt 12000)]%string.

Definition scenario_minimal : gmap string value :=
  list_to_map
    [("monthly_revenue", VInt 3000); ("monthly_orders", VInt 10);
     ("average_order_value", VInt 10)]%string.

(** A size measure on values, for induction through lists and maps. *)
Fixpoint vsize (v : value) : nat :=
  match v with
  | VList l => S (foldr Nat.add 0%nat (vsize <$> l))
  | VDict d => S (map_fold (fun _ n acc => (n + acc)%nat) 0%nat (vsize <$> d))
  | _ => 0%nat
  end.

Fixpoint str_all (p : ascii -> bool) (s : string) : bool :=
  match s with
  | EmptyString => true
  | String c r => p c && str_all p r
  end.

Definition safe_char (c : ascii) : bool := negb (dangerous c).

Definition is_str (v : value) : bool :=
  match v with VStr _ => true | _ => false end.




(** Inputs on which the validator cannot raise: the text fields hold
    strings (or falsy values) and no numeric field is an integer beyond
    the range of a double. *)
Definition str_or_falsy (v : value) : bool := is_str v || negb (truthy v).

Definition overflows (v : value) : bool :=
  match py_float v with
  | Raise OverflowError => true
  | _ => false
  end.

Definition text_fields : list string :=
  ["first_name"; "last_name"; "email"; "phone"; "website"; "company"]%string.

Definition number_fields : list string :=
  ["monthly_revenue"; "average_order_value"; "monthly_orders";
   "conversion_rate"; "cart_abandonment_rate"]%string.

Definition well_typed (data : gmap string value) : bool :=
  forallb (fun f => str_or_falsy (dict_get data f)) text_fields
  && forallb (fun f => negb (overflows (dict_get data f))) number_fields.

(** A submission that passes validation, with a free-text value in the
    never validated [manual_hours_per_week]. *)
Definition submission_bad_hours : gmap string value :=
  list_to_map
    [("first_name", VStr "Ann"); ("last_name", VStr "Lee");
     ("email", VStr "ann@example.com"); ("monthly_revenue", VInt 5000);
     ("average_order_value", VInt 50); ("monthly_orders", VInt 100);
     ("manual_hours_per_week", VStr "abc")]%string.

(** A calculation request whose revenue is the integer 10^400. *)
Definition huge_revenue : gmap string value :=
  {[ "monthly_revenue"%string := VInt (10 ^ 400) ]}.

(** A complete submission with the given monthly revenue. *)
Definition submission_with_revenue (v : value) : gmap string value :=
  list_to_map
    [("first_name", VStr "Ann"); ("last_name", VStr "Lee");
     ("email", VStr "ann@example.com"); ("monthly_revenue", v);
     ("average_order_value", VInt 50); ("monthly_orders", VInt 100)]%string.

(** ** Follow-up lookups and lead insights *)

(** [table.get(key, dflt)] on a dictionary with string keys, for any
    type of entries. *)
Definition py_table_get {A} (table : gmap string A) (key : value) (dflt : A)
  : res A :=
  match key with
  | VStr s => Ok (default dflt (table !! s))
  | VList _ | VDict _ => Raise TypeError
  | _ => Ok dflt
  end.

Definition priorities : gmap string (gmap string string) :=
  list_to_map
    [("Hot", list_to_map
        [("timing", "1 hour"); ("priority", "Immediate");
         ("approach", "Phone call + personalized email")]);
     ("Warm", list_to_map
        [("timing", "24 hours"); ("priority", "High");
         ("approach", "Personalized email + follow-up call")]);
     ("Cold", list_to_map
        [("timing", "3 days"); ("priority", "Standard");
         ("approach", "Email nurture sequence")])]%string.

(** [get_follow_up_priority] of [src/utils/lead_scoring.py]. *)
Definition get_follow_up_priority (tier : value) : res (gmap string string) :=
  py_table_get priorities tier (priorities !!! "Cold"%string).

Definition follow_up_times : gmap string string :=
  list_to_map [("Hot", "1 hour"); ("Warm", "24 hours"); ("Cold", "3 days")]%string.

(** [get_follow_up_time] of [src/routes/roi_calculator_secure.py]; the
    method of the same name in [src/services/email_service.py] has the
    same body. *)
Definition get_follow_up_time (tier : value) : res string :=
  py_table_get follow_up_times tier "24 hours"%string.

(** The format [:,.0f] of a float: the nearest integer, ties to even,
    with its digits grouped in threes. *)
Definition format_float_0f (f : pyfloat) : string :=
  match f with
  | FNan => "nan"%string
  | FInf neg => if neg then "-inf"%string else "inf"%string
  | FFin q =>
      (if Qnum q <? 0 then "-"%string else ""%string)
      +:+ format_thousands (round_half_even (Z.abs (Qnum q)) (Zpos (Qden q)))
  end.

(** Decimal notation of an integer. *)
Definition str_of_int (n : Z) : string := NilZero.string_of_int (Z.to_int n).

(** [get_lead_insights] of [src/utils/lead_scoring.py]; [score] and
    [tier] are not used by the body. *)
Definition get_lead_insights (data : gmap string value) (score tier : value)
  : res (list string) :=
  let insights : list string := [] in
  let* monthly_revenue := py_float (dict_get_or data "monthly_revenue" (VInt 0)) in
  let insights :=
    if flt_ge monthly_revenue 50000 then
      insights ++ ["High revenue business ($" +:+ format_float_0f monthly_revenue +:+ "/month)"]
    else if flt_ge monthly_revenue 10000 then
      insights ++ ["Growing business ($" +:+ format_float_0f monthly_revenue +:+ "/month)"]
    else insights in
  let industry := dict_get_or data "industry" (VStr "") in
  let insights :=
    match industry with
    | VStr name =>
        if in_options industry ["E-commerce"; "SaaS"; "Retail"]%string then
          insights ++ ["Perfect fit industry: " +:+ name]
        else if in_options industry ["Technology"; "Marketing"]%string then
          insights ++ ["Good fit industry: " +:+ name]
        else insights
    | _ => insights
    end in
  let* conversion_rate := py_float (dict_get_or data "conversion_rate" (VInt 0)) in
  let insights :=
    if flt_gt conversion_rate 0 && flt_lt conversion_rate 3 then
      insights ++ ["Low conversion rate - high optimization potential"%string]
    else insights in
  let* abandonment_rate := py_float (dict_get_or data "cart_abandonment_rate" (VInt 0)) in
  let insights :=
    if flt_gt abandonment_rate 60 then
      insights ++ ["High cart abandonment - major opportunity"%string]
    else insights in
  let* manual_hours := py_int (dict_get_or data "manual_hours_per_week" (VInt 0)) in
  let insights :=
    if manual_hours >=? 10 then
      insights ++ ["High manual workload (" +:+ str_of_int manual_hours
                   +:+ " hrs/week) - automation opportunity"]
    else insights in
  Ok insights.


(** The order of floats as numbers: NaN is not comparable. *)
Definition flt_order (a b : pyfloat) : Prop :=
  match a, b with
  | FFin p, FFin q => (p <= q)%Q
  | FInf true, (FFin _ | FInf _) => True
  | FFin _, FInf false => True
  | FInf false, FInf false => True
  | _, _ => False
  end.

(** ** The stand-alone validators of [src/utils/security.py] *)

Definition validate_email (email : value) : res bool :=
  if negb (truthy email) then Ok false
  else re_match email_pattern email.

Definition validate_phone (phone : value) : res bool :=
  if negb (truthy phone) then Ok true
  else
    let* digits := digits_only phone in
    let n := Z.of_nat (String.length digits) in
    Ok ((10 <=? n) && (n <=? 15)).

Definition validate_url (url : value) : res bool :=
  if negb (truthy url) then Ok true
  else re_match website_pattern url.

(** The keys under which [validate_roi_submission] can report. *)
Definition validated_fields : list string :=
  ["first_name"; "last_name"; "email"; "monthly_revenue";
   "average_order_value"; "monthly_orders"; "phone"; "website"; "company";
   "industry"; "business_stage"; "company_size"; "conversion_rate";
   "cart_abandonment_rate"]%string.

(** Every character class of [r] lies inside [P]. *)
Fixpoint classes_in (P : ascii -> bool) (r : regex) : Prop :=
  match r with
  | RNull | REps => True
  | RClass p => forall c, p c = true -> P c = true
  | RCat r1 r2 | RAlt r1 r2 => classes_in P r1 /\ classes_in P r2
  | RStar r1 => classes_in P r1
  end.

(** A sufficient test for a regular expression that matches nothing. *)
Fixpoint dead (r : regex) : bool :=
  match r with
  | RNull => true
  | REps | RClass _ | RStar _ => false
  | RCat r1 r2 => dead r1 || dead r2
  | RAlt r1 r2 => dead r1 && dead r2
  end.

(** The characters an address matched by the email pattern can hold. *)
Definition email_char (c : ascii) : bool := is_alnum c || one_of "._%+-@" c.

(** A string that is empty or starts with a character that is not
    whitespace. *)
Definition no_leading_space (s : string) : bool :=
  match s with
  | EmptyString => true
  | String c _ => negb (is_space c)
  end.

(** A phone number that one pass of [sanitize_form_data] leaves with
    trailing blanks. *)
Definition padded_phone : gmap string value :=
  {[ "phone"%string := VStr "1                   2" ]}.

(** ** Rate limiting ([rate_limit] of [src/utils/security.py])

    The store maps a client address to the deque of the times of its
    accepted requests.  The clock is a parameter: [expired now t] stands
    for the test [now - t > window_seconds] on the floats of the
    source. *)

(** The [while] loop: entries are popped from the left while the oldest
    one is expired. *)
Fixpoint drop_expired {T} (expired : T -> T -> bool) (now : T) (q : list T)
  : list T :=
  match q with
  | t :: q' => if expired now t then drop_expired expired now q' else q
  | [] => []
  end.

(** One decorated call, up to the call of the wrapped function: the new
    store, and whether the request is let through ([false] is the 429
    response).  Reading the store creates the entry of the client. *)
Definition rate_limit_call {T} (expired : T -> T -> bool) (max_requests : Z)
    (client_ip : string) (now : T) (storage : gmap string (list T))
  : gmap string (list T) * bool :=
  let q := drop_expired expired now (default [] (storage !! client_ip)) in
  if Z.of_nat (List.length q) >=? max_requests then
    (<[client_ip := q]> storage, false)
  else
    (<[client_ip := q ++ [now]]> storage, true).

(** A sequence of calls, each with its client and its time. *)
Definition rate_limit_run {T} (expired : T -> T -> bool) (max_requests : Z)
    (calls : list (string * T)) (storage : gmap string (list T))
  : gmap string (list T) :=
  foldl (fun st call => (rate_limit_call expired max_requests call.1 call.2 st).1)
        storage calls.

(** A clock in whole seconds with a window of one minute. *)
Definition expired_after_minute (now t : Z) : bool := now - t >? 60.

(** ** Submission tracking ([SubmissionTracker] of
    [src/utils/monitoring.py]) *)

Record tracker := {
  submissions : gmap Z (gmap string value);
  success_count : Z;
  error_count : Z
}.

Definition tracker_init : tracker :=
  {| submissions := ∅; success_count := 0; error_count := 0 |}.

(** [self.submissions[submission_id]] of a [defaultdict(dict)]. *)
Definition tracker_entry (t : tracker) (submission_id : Z) : gmap string value :=
  default ∅ (submissions t !! submission_id).

Definition record_success (submission_id : Z) (processing_time : pyfloat)
    (t : tracker) : tracker :=
  let entry := <["status"%string := VStr "success"]> (tracker_entry t submission_id) in
  let entry := <["processing_time"%string := VFloat processing_time]> entry in
  {| submissions := <[submission_id := entry]> (submissions t);
     success_count := success_count t + 1;
     error_count := error_count t |}.

Definition record_error (submission_id : Z) (error_type error_message : value)
    (t : tracker) : tracker :=
  let entry := <["status"%string := VStr "error"]> (tracker_entry t submission_id) in
  let entry := <["error_type"%string := error_type]> entry in
  let entry := <["error_message"%string := error_message]> entry in
  {| submissions := <[submission_id := entry]> (submissions t);
     success_count := success_count t;
     error_count := error_count t + 1 |}.

(** The product of a float and an integer, rounded to a double. *)
Definition flt_mul_int (f : pyfloat) (k : Z) : pyfloat :=
  match f with
  | FFin q => round_double (Qnum q * k) (Qden q)
  | FInf neg =>
      if k =? 0 then FNan else FInf (if k <? 0 then negb neg else neg)
  | FNan => FNan
  end.

Record tracker_stats := {
  total_submissions : Z;
  stat_success_count : Z;
  stat_error_count : Z;
  success_rate : pyfloat
}.

(** [get_stats]: the quotient of two integers is the nearest double and
    raises [OverflowError] beyond the range of doubles. *)
Definition get_stats (t : tracker) : res tracker_stats :=
  let total := Z.of_nat (size (submissions t)) in
  match round_double (success_count t) (Z.to_pos (Z.max total 1)) with
  | FFin q =>
      Ok {| total_submissions := total;
            stat_success_count := success_count t;
            stat_error_count := error_count t;
            success_rate := flt_mul_int (FFin q) 100 |}
  | _ => Raise OverflowError
  end.

(** The calls made on a tracker. *)
Inductive tracker_call :=
| CallSuccess (submission_id : Z) (processing_time : pyfloat)
| CallError (submission_id : Z) (error_type error_message : value).

Definition tracker_step (t : tracker) (c : tracker_call) : tracker :=
  match c with
  | CallSuccess i pt => record_success i pt t
  | CallError i ty msg => record_error i ty msg t
  end.

Definition tracker_run (calls : list tracker_call) : tracker :=
  foldl tracker_step tracker_init calls.

Definition call_id (c : tracker_call) : Z :=
  match c with
  | CallSuccess i _ => i
  | CallError i _ _ => i
  end.

Definition is_success_call (c : tracker_call) : bool :=
  match c with CallSuccess _ _ => true | CallError _ _ _ => false end.

(* ===================================================================== *)
(** * Properties *)
(* ===================================================================== *)

(** ** Scoring *)

Ltac case_res :=
  repeat match goal with
    | |- context [bind ?r _] => destruct r eqn:?; simpl
    | H : context [bind ?r _] |- _ => destruct r eqn:?; simpl in H
    end.

Lemma table_get_bounds (table : gmap string Z) (hi : Z) (key : value) (pts : Z) :
  map_Forall (fun _ v => 0 <= v <= hi) table ->
  0 <= hi ->
  table_get table key = Ok pts ->
  0 <= pts <= hi.
Proof.
  intros Hall Hhi Hget.
  destruct key; simpl in Hget; try (inversion Hget; subst; lia).
  inversion Hget; subst; clear Hget.
  destruct (table !! s) as [v|] eqn:Hs; simpl; [exact (Hall s v Hs) | lia].
Qed.


Lemma size_scores_bounds : map_Forall (fun _ v => 0 <= v <= 15) size_scores.
Proof. apply (bool_decide_unpack _). vm_compute. exact I. Qed.


Lemma stage_scores_bounds : map_Forall (fun _ v => 0 <= v <= 10) stage_scores.
Proof. apply (bool_decide_unpack _). vm_compute. exact I. Qed.

Ltac case_ifs :=
  repeat match goal with
    | |- context [if ?b then _ else _] => destruct b
    end.

Lemma revenue_points_bounds f : 0 <= revenue_points f <= 25.
Proof. unfold revenue_points. case_ifs; lia. Qed.

Lemma orders_points_bounds n : 0 <= orders_points n <= 15.
Proof. unfold orders_points. case_ifs; lia. Qed.

Lemma aov_points_bounds f : 0 <= aov_points f <= 10.
Proof. unfold aov_points. case_ifs; lia. Qed.

Lemma conversion_points_bounds f : 0 <= conversion_points f <= 15.
Proof. unfold conversion_points. case_ifs; lia. Qed.

Lemma abandonment_points_bounds f : 0 <= abandonment_points f <= 15.
Proof. unfold abandonment_points. case_ifs; lia. Qed.

Lemma manual_hours_points_bounds n : 0 <= manual_hours_points n <= 10.
Proof. unfold manual_hours_points. case_ifs; lia. Qed.

Lemma ad_spend_points_bounds f : 0 <= ad_spend_points f <= 10.
Proof. unfold ad_spend_points. case_ifs; lia. Qed.










(** C2: [assign_tier] returns Hot exactly from 100 up, Warm exactly on
    60..99 and Cold exactly below 60, always one of the three, and a
    larger score never gets a lower tier. *)
Theorem assign_tier_partition_monotone (score : Z) :
  (assign_tier score = "Hot"%string <-> 100 <= score) /\
  (assign_tier score = "Warm"%string <-> 60 <= score < 100) /\
  (assign_tier score = "Cold"%string <-> score < 60) /\
  (assign_tier score = "Hot" \/ assign_tier score = "Warm" \/
   assign_tier score = "Cold")%string /\
  (forall score', score <= score' ->
     tier_rank (assign_tier score) <= tier_rank (assign_tier score')).
Proof.
  unfold assign_tier.
  repeat split; intros;
    repeat match goal with
      | H : context [?a >=? ?b] |- _ => destruct (Z.geb_spec a b); simpl in H
      | |- context [?a >=? ?b] => destruct (Z.geb_spec a b); simpl
      end;
    try discriminate; try lia; try reflexivity; auto.
Qed.

(** C8: the two scenarios of the specification evaluate as stated. *)
Theorem scenarios_score_as_stated :
  (calculate_demographic_score scenario_full = Ok 50 /\
   calculate_behavioral_score scenario_full = Ok 50 /\
   calculate_fit_score scenario_full = Ok 50 /\
   calculate_lead_score scenario_full = Ok 150 /\
   (let* score := calculate_lead_score scenario_full in Ok (assign_tier score))
   = Ok "Hot"%string) /\
  (calculate_demographic_score scenario_minimal = Ok 0 /\
   calculate_behavioral_score scenario_minimal = Ok 0 /\
   calculate_fit_score scenario_minimal = Ok 0 /\
   calculate_lead_score scenario_minimal = Ok 0 /\
   (let* score := calculate_lead_score scenario_minimal in Ok (assign_tier score))
   = Ok "Cold"%string).
Proof. repeat split; vm_compute; reflexivity. Qed.

(** ** Induction on values *)

Lemma fold_sum_lookup (m : gmap string nat) k n :
  m !! k = Some n ->
  (n <= map_fold (fun _ n acc => n + acc) 0 m)%nat.
Proof.
  revert k n. induction m as [|i x m Hi IH] using map_ind; intros k n Hk.
  - rewrite lookup_empty in Hk. discriminate.
  - rewrite map_fold_insert_L; [| intros; lia | done].
    destruct (decide (i = k)) as [->|Hne].
    + rewrite lookup_insert_eq in Hk. inversion Hk; subst. lia.
    + rewrite lookup_insert_ne in Hk by done. specialize (IH _ _ Hk). lia.
Qed.

Lemma vsize_dict_lookup (d : gmap string value) k v :
  d !! k = Some v -> (vsize v < vsize (VDict d))%nat.
Proof.
  intros Hk. simpl.
  assert ((vsize <$> d) !! k = Some (vsize v)) as H by (rewrite lookup_fmap, Hk; done).
  apply fold_sum_lookup in H. lia.
Qed.

Lemma vsize_list_elem (l : list value) v :
  v ∈ l -> (vsize v < vsize (VList l))%nat.
Proof.
  intros Hv. change (vsize v < S (foldr Nat.add 0 (vsize <$> l)))%nat.
  induction Hv as [|? ? ? ? IH]; rewrite fmap_cons; cbn [foldr]; lia.
Qed.

Lemma value_nested_ind (P : value -> Prop) :
  P VNone ->
  (forall b, P (VBool b)) ->
  (forall n, P (VInt n)) ->
  (forall f, P (VFloat f)) ->
  (forall s, P (VStr s)) ->
  (forall l, Forall P l -> P (VList l)) ->
  (forall d : gmap string value, map_Forall (fun _ => P) d -> P (VDict d)) ->
  forall v, P v.
Proof.
  intros Hnone Hbool Hint Hfloat Hstr Hlist Hdict v.
  remember (vsize v) as n eqn:Hn. revert v Hn.
  induction n as [n IH] using lt_wf_ind. intros v ->.
  destruct v; auto.
  - apply Hlist, Forall_forall. intros x Hx.
    eapply IH; [apply (vsize_list_elem _ _ Hx) | reflexivity].
  - apply Hdict. intros k x Hk.
    eapply IH; [apply (vsize_dict_lookup _ _ _ Hk) | reflexivity].
Qed.

(** ** Sanitization *)

Lemma str_filter_all p s : str_all p (str_filter p s) = true.
Proof.
  induction s as [|c r IH]; simpl; [done|].
  destruct (p c) eqn:Hc; simpl; [rewrite Hc|]; done.
Qed.

Lemma str_take_all p n s : str_all p s = true -> str_all p (str_take n s) = true.
Proof.
  revert s. induction n as [|n IH]; intros [|c r]; simpl; try done.
  intros [Hc Hr]%andb_prop. rewrite Hc. simpl. auto.
Qed.

Lemma str_filter_id p s : str_all p s = true -> str_filter p s = s.
Proof.
  induction s as [|c r IH]; simpl; [done|].
  intros [Hc Hr]%andb_prop. rewrite Hc, IH; done.
Qed.

Lemma str_take_length n s : (String.length (str_take n s) <= n)%nat.
Proof.
  revert s. induction n as [|n IH]; intros [|c r]; simpl; try lia.
  specialize (IH r). lia.
Qed.

Lemma str_take_id n s : (String.length s <= n)%nat -> str_take n s = s.
Proof.
  revert s. induction n as [|n IH]; intros [|c r]; simpl; try done; try lia.
  intros H. rewrite IH; [done | lia].
Qed.

Lemma lstrip_all p s : str_all p s = true -> str_all p (lstrip s) = true.
Proof.
  induction s as [|c r IH]; simpl; [done|].
  intros H. destruct (is_space c); [|exact H].
  apply andb_prop in H as [_ Hr]. auto.
Qed.

Lemma rstrip_all p s : str_all p s = true -> str_all p (rstrip s) = true.
Proof.
  induction s as [|c r IH]; simpl; [done|].
  intros [Hc Hr]%andb_prop. specialize (IH Hr).
  destruct (rstrip r) as [|c' r']; [destruct (is_space c)|];
    simpl in *; rewrite ?Hc; auto.
Qed.

Lemma clean_string_fixed s :
  let s' := str_take 1000 (strip_dangerous s) in
  str_take 1000 (strip_dangerous s') = s'.
Proof.
  intros s'. unfold strip_dangerous.
  rewrite (str_filter_id _ s').
  - apply str_take_id, str_take_length.
  - apply str_take_all, str_filter_all.
Qed.

Lemma sanitize_input_idempotent v :
  sanitize_input (sanitize_input v) = sanitize_input v.
Proof.
  induction v as [| | | | s | l IH | d IH] using value_nested_ind; simpl; try done.
  - f_equal. apply clean_string_fixed.
  - f_equal. rewrite <- list_fmap_compose.
    apply Forall_fmap_ext_1. eapply Forall_impl; [exact IH|]. done.
  - f_equal. rewrite <- map_fmap_compose.
    apply map_fmap_ext. intros k x Hk. exact (IH k x Hk).
Qed.




(** C6: sanitizing twice gives the same data as sanitizing once, hence
    the same outcome of [calculate_lead_score]. *)
Theorem score_of_sanitized_idempotent (data : gmap string value) :
  sanitize_input (VDict data) = VDict (sanitize_input <$> data) /\
  sanitize_input (sanitize_input (VDict data)) = sanitize_input (VDict data) /\
  calculate_lead_score (sanitize_input <$> (sanitize_input <$> data))
  = calculate_lead_score (sanitize_input <$> data).
Proof.
  split; [reflexivity|].
  pose proof (sanitize_input_idempotent (VDict data)) as H.
  split; [exact H|].
  simpl in H. injection H as ->. reflexivity.
Qed.

(** ** Validation *)

Lemma bind_ok {A B} (r : res A) (k : A -> res B) b :
  bind r k = Ok b -> exists a, r = Ok a /\ k a = Ok b.
Proof. destruct r; simpl; [eauto | discriminate]. Qed.

Ltac inv_bind :=
  repeat match goal with
    | H : bind _ _ = Ok _ |- _ =>
        let a := fresh "e" in
        let Ha := fresh "Hstep" in
        apply bind_ok in H as (a & Ha & H)
    end.

Ltac inv_ok :=
  repeat match goal with
    | H : Ok _ = Ok _ |- _ => inversion H; subst; clear H
    | H : Raise _ = Ok _ |- _ => discriminate H
    | H : (if ?b then _ else _) = Ok _ |- _ => destruct b eqn:?
    | H : match ?r with Ok _ => _ | Raise _ => _ end = Ok _ |- _ => destruct r eqn:?
    | H : match ?x with TypeError => _ | ValueError => _ | OverflowError => _ end = Ok _ |- _ =>
        destruct x
    end.

(** Each check writes at most the key of its own field. *)

Lemma check_required_frame data f e e' k :
  check_required data f e = Ok e' -> k <> f -> e' !! k = e !! k.
Proof.
  unfold check_required. intros H Hk.
  destruct (truthy _); simpl in H;
    [destruct (dict_get data f); try destruct (String.eqb _ _)|];
    inv_ok; rewrite ?lookup_insert_ne by congruence; reflexivity.
Qed.

Lemma check_email_frame data e e' k :
  check_email data e = Ok e' -> k <> "email"%string -> e' !! k = e !! k.
Proof.
  unfold check_email. intros H Hk.
  destruct (truthy _); inv_bind; inv_ok;
    rewrite ?lookup_insert_ne by congruence; reflexivity.
Qed.

Lemma check_name_frame data f e e' k :
  check_name data f e = Ok e' -> k <> f -> e' !! k = e !! k.
Proof.
  unfold check_name. intros H Hk.
  destruct (truthy _); inv_bind; inv_ok; inv_bind; inv_ok;
    rewrite ?lookup_insert_ne by congruence; reflexivity.
Qed.

Lemma check_financial_frame data f c e e' k :
  check_financial data (f, c) e = Ok e' -> k <> f -> e' !! k = e !! k.
Proof.
  unfold check_financial. destruct c as [cmin cmax]. intros H Hk.
  destruct (truthy _); inv_ok;
    rewrite ?lookup_insert_ne by congruence; reflexivity.
Qed.

Lemma check_phone_frame data e e' k :
  check_phone data e = Ok e' -> k <> "phone"%string -> e' !! k = e !! k.
Proof.
  unfold check_phone. intros H Hk.
  destruct (truthy _); inv_bind; inv_ok;
    rewrite ?lookup_insert_ne by congruence; reflexivity.
Qed.

Lemma check_website_frame data e e' k :
  check_website data e = Ok e' -> k <> "website"%string -> e' !! k = e !! k.
Proof.
  unfold check_website. intros H Hk.
  destruct (truthy _); inv_bind; inv_ok;
    rewrite ?lookup_insert_ne by congruence; reflexivity.
Qed.

Lemma check_company_frame data e e' k :
  check_company data e = Ok e' -> k <> "company"%string -> e' !! k = e !! k.
Proof.
  unfold check_company. intros H Hk.
  destruct (truthy _); inv_bind; inv_ok;
    rewrite ?lookup_insert_ne by congruence; reflexivity.
Qed.

Lemma check_choice_frame data f options message (e : errmap) k :
  k <> f -> check_choice data f options message e !! k = e !! k.
Proof.
  unfold check_choice. intros Hk.
  destruct (_ && _); rewrite ?lookup_insert_ne by congruence; reflexivity.
Qed.

Lemma check_percentage_frame data f e e' k :
  check_percentage data f e = Ok e' -> k <> f -> e' !! k = e !! k.
Proof.
  unfold check_percentage. intros H Hk.
  destruct (truthy _); inv_ok;
    rewrite ?lookup_insert_ne by congruence; reflexivity.
Qed.

(** A falsy value makes the guarded checks return the error map as it
    is. *)

Lemma check_email_skip data e :
  truthy (dict_get data "email") = false -> check_email data e = Ok e.
Proof. unfold check_email. intros ->. reflexivity. Qed.

Lemma check_name_skip data f e :
  truthy (dict_get data f) = false -> check_name data f e = Ok e.
Proof. unfold check_name. intros ->. reflexivity. Qed.

Lemma check_financial_skip data f c e :
  truthy (dict_get data f) = false -> check_financial data (f, c) e = Ok e.
Proof. unfold check_financial. destruct c. intros ->. reflexivity. Qed.

Lemma check_percentage_skip data f e :
  truthy (dict_get data f) = false -> check_percentage data f e = Ok e.
Proof. unfold check_percentage. intros ->. reflexivity. Qed.

(** What each check writes under its own key. *)

Lemma check_required_falsy data f e e' :
  check_required data f e = Ok e' ->
  truthy (dict_get data f) = false ->
  e' !! f = Some (field_label f +:+ " is required").
Proof.
  unfold check_required. intros H Ht. rewrite Ht in H. simpl in H. inv_ok.
  apply lookup_insert_eq.
Qed.

Lemma check_required_present data f e e' :
  check_required data f e = Ok e' ->
  truthy (dict_get data f) = true ->
  (forall s, dict_get data f = VStr s -> str_strip s <> ""%string) ->
  e' = e.
Proof.
  unfold check_required. intros H Ht Hs. rewrite Ht in H. simpl in H.
  destruct (dict_get data f) eqn:Hv; inv_ok; try reflexivity.
  apply String.eqb_eq in Heqb. exfalso. eapply Hs; eauto.
Qed.

Lemma check_financial_value data f cmin cmax e e' value :
  check_financial data (f, (cmin, cmax)) e = Ok e' ->
  truthy (dict_get data f) = true ->
  py_float (dict_get data f) = Ok value ->
  e' !! f =
    if flt_lt value cmin then
      Some (field_label f +:+ " must be at least $" +:+ format_thousands cmin)
    else if flt_gt value cmax then
      Some (field_label f +:+ " cannot exceed $" +:+ format_thousands cmax)
    else e !! f.
Proof.
  unfold check_financial. intros H Ht Hv. rewrite Ht, Hv in H.
  destruct (flt_lt value cmin); [|destruct (flt_gt value cmax)]; inv_ok;
    rewrite ?lookup_insert_eq; reflexivity.
Qed.

Lemma check_financial_unparsed data f c e e' x :
  check_financial data (f, c) e = Ok e' ->
  truthy (dict_get data f) = true ->
  py_float (dict_get data f) = Raise x ->
  x <> OverflowError /\
  e' !! f = Some (field_label f +:+ " must be a valid number").
Proof.
  unfold check_financial. destruct c. intros H Ht Hv. rewrite Ht, Hv in H.
  destruct x; inv_ok; (split; [discriminate | apply lookup_insert_eq]).
Qed.

(** The validator returns on well-typed input. *)

Lemma check_required_returns data f e :
  exists e', check_required data f e = Ok e'.
Proof.
  unfold check_required.
  destruct (truthy _); simpl; eauto.
  destruct (dict_get data f); eauto. destruct (String.eqb _ _); eauto.
Qed.

Lemma str_or_falsy_inv v :
  str_or_falsy v = true -> truthy v = false \/ exists s, v = VStr s.
Proof.
  unfold str_or_falsy. destruct (truthy v) eqn:E; [|auto].
  destruct v; simpl; intros H; try discriminate H; eauto.
Qed.

Lemma check_email_returns data e :
  str_or_falsy (dict_get data "email") = true ->
  exists e', check_email data e = Ok e'.
Proof.
  unfold check_email. intros [->|[s ->]]%str_or_falsy_inv; eauto.
  destruct (truthy _); eauto. simpl. destruct (negb _); eauto.
Qed.

Lemma check_name_returns data f e :
  str_or_falsy (dict_get data f) = true ->
  exists e', check_name data f e = Ok e'.
Proof.
  unfold check_name. intros [->|[s ->]]%str_or_falsy_inv; eauto.
  destruct (truthy _); eauto. simpl.
  destruct (_ <? _); eauto. destruct (_ >? _); eauto. destruct (negb _); eauto.
Qed.

Lemma check_financial_returns data f c e :
  overflows (dict_get data f) = false ->
  exists e', check_financial data (f, c) e = Ok e'.
Proof.
  unfold check_financial, overflows. destruct c as [cmin cmax].
  destruct (truthy _); eauto.
  destruct (py_float _) as [v|[]]; try discriminate; eauto.
  destruct (flt_lt _ _); eauto. destruct (flt_gt _ _); eauto.
Qed.

Lemma check_phone_returns data e :
  str_or_falsy (dict_get data "phone") = true ->
  exists e', check_phone data e = Ok e'.
Proof.
  unfold check_phone. intros [->|[s ->]]%str_or_falsy_inv; eauto.
  destruct (truthy _); eauto. simpl. destruct (_ || _); eauto.
Qed.

Lemma check_website_returns data e :
  str_or_falsy (dict_get data "website") = true ->
  exists e', check_website data e = Ok e'.
Proof.
  unfold check_website. intros [->|[s ->]]%str_or_falsy_inv; eauto.
  destruct (truthy _); eauto. simpl. destruct (negb _); eauto.
Qed.

Lemma check_company_returns data e :
  str_or_falsy (dict_get data "company") = true ->
  exists e', check_company data e = Ok e'.
Proof.
  unfold check_company. intros [->|[s ->]]%str_or_falsy_inv; eauto.
  destruct (truthy _); eauto. simpl. destruct (_ >? _); eauto.
Qed.

Lemma check_percentage_returns data f e :
  overflows (dict_get data f) = false ->
  exists e', check_percentage data f e = Ok e'.
Proof.
  unfold check_percentage, overflows.
  destruct (truthy _); eauto.
  destruct (py_float _) as [v|[]]; try discriminate; eauto.
  destruct (_ || _); eauto.
Qed.

Ltac run_step :=
  match goal with
  | |- context [bind (check_required ?d ?f ?e) _] =>
      destruct (check_required_returns d f e) as [? ->]
  | |- context [bind (check_email ?d ?e) _] =>
      destruct (check_email_returns d e) as [? ->]; [assumption|]
  | |- context [bind (check_name ?d ?f ?e) _] =>
      destruct (check_name_returns d f e) as [? ->]; [assumption|]
  | |- context [bind (check_financial ?d (?f, ?c) ?e) _] =>
      destruct (check_financial_returns d f c e) as [? ->];
      [apply negb_true_iff; assumption|]
  | |- context [bind (check_phone ?d ?e) _] =>
      destruct (check_phone_returns d e) as [? ->]; [assumption|]
  | |- context [bind (check_website ?d ?e) _] =>
      destruct (check_website_returns d e) as [? ->]; [assumption|]
  | |- context [bind (check_company ?d ?e) _] =>
      destruct (check_company_returns d e) as [? ->]; [assumption|]
  | |- context [bind (check_percentage ?d ?f ?e) _] =>
      destruct (check_percentage_returns d f e) as [? ->];
      [apply negb_true_iff; assumption|]
  end; cbn [bind].

Lemma validate_roi_submission_returns data :
  well_typed data = true -> exists r, validate_roi_submission data = Ok r.
Proof.
  unfold well_typed. cbn [forallb text_fields number_fields]. intros H.
  repeat match goal with
    | H : _ && _ = true |- _ => apply andb_prop in H as [? ?]
    end.
  unfold validate_roi_submission.
  cbn [for_each required_fields financial_fields percentage_fields].
  repeat run_step. eauto.
Qed.

(** Following one key through the run of the validator. *)

Ltac open_validate H :=
  unfold validate_roi_submission in H;
  cbn [for_each required_fields financial_fields percentage_fields] in H;
  inv_bind;
  repeat match goal with
    | H : Ok _ = Ok _ |- _ => inversion H; subst; clear H
    end;
  cbn [errors valid make_result].

Ltac frame_step k H e e' lem :=
  let H2 := fresh "Hframe" in
  assert (H2 : e' !! k = e !! k) by (apply (lem k H); discriminate);
  clear H.

Ltac frame_others k :=
  repeat match goal with
    | H : check_required ?d ?f ?e = Ok ?e' |- _ =>
        frame_step k H e e' (check_required_frame d f e e')
    | H : check_email ?d ?e = Ok ?e' |- _ =>
        frame_step k H e e' (check_email_frame d e e')
    | H : check_name ?d ?f ?e = Ok ?e' |- _ =>
        frame_step k H e e' (check_name_frame d f e e')
    | H : check_financial ?d (?f, ?c) ?e = Ok ?e' |- _ =>
        frame_step k H e e' (check_financial_frame d f c e e')
    | H : check_phone ?d ?e = Ok ?e' |- _ =>
        frame_step k H e e' (check_phone_frame d e e')
    | H : check_website ?d ?e = Ok ?e' |- _ =>
        frame_step k H e e' (check_website_frame d e e')
    | H : check_company ?d ?e = Ok ?e' |- _ =>
        frame_step k H e e' (check_company_frame d e e')
    | H : check_percentage ?d ?f ?e = Ok ?e' |- _ =>
        frame_step k H e e' (check_percentage_frame d f e e')
    end;
  repeat rewrite (check_choice_frame _ _ _ _ _ k) in * by discriminate.

(** The error under [monthly_revenue] is what the required-field check
    and then the financial check leave there. *)
Lemma validate_monthly_revenue_steps data r :
  validate_roi_submission data = Ok r ->
  exists e0 e1 e2 e3 : errmap,
    e0 !! "monthly_revenue"%string = None /\
    check_required data "monthly_revenue" e0 = Ok e1 /\
    e2 !! "monthly_revenue"%string = e1 !! "monthly_revenue"%string /\
    check_financial data ("monthly_revenue"%string, (1000, 10000000)) e2 = Ok e3 /\
    errors r !! "monthly_revenue"%string = e3 !! "monthly_revenue"%string.
Proof.
  intros H. open_validate H. frame_others "monthly_revenue"%string.
  do 4 eexists.
  split; [|split; [eassumption|split; [|split; [eassumption|]]]].
  - rewrite <- (lookup_empty (M := gmap string) (A := string) "monthly_revenue"%string).
    congruence.
  - congruence.
  - congruence.
Qed.

Lemma py_float_not_blank s f : py_float (VStr s) = Ok f -> str_strip s <> ""%string.
Proof.
  intros H E. unfold py_float, parse_float in H. rewrite E in H.
  vm_compute in H. discriminate.
Qed.


Lemma flt_le_not_gt f c : flt_le f c = true -> flt_gt f c = false.
Proof. destruct f as [q|[]|]; simpl; try done. intros ->. done. Qed.

Lemma monthly_revenue_parsed data r f :
  validate_roi_submission data = Ok r ->
  truthy (dict_get data "monthly_revenue") = true ->
  py_float (dict_get data "monthly_revenue") = Ok f ->
  errors r !! "monthly_revenue"%string =
    if flt_lt f 1000 then Some "Monthly Revenue must be at least $1,000"%string
    else if flt_gt f 10000000 then
      Some "Monthly Revenue cannot exceed $10,000,000"%string
    else None.
Proof.
  intros H Ht Hf.
  destruct (validate_monthly_revenue_steps _ _ H)
    as (e0 & e1 & e2 & e3 & H0 & Hreq & H12 & Hfin & Hr).
  apply check_required_present in Hreq; auto.
  - subst e1. rewrite Hr, (check_financial_value _ _ _ _ _ _ _ Hfin Ht Hf).
    rewrite H12, H0. reflexivity.
  - intros s Hs. rewrite Hs in Hf. eapply py_float_not_blank; eauto.
Qed.

Lemma monthly_revenue_unparsed data r x :
  validate_roi_submission data = Ok r ->
  truthy (dict_get data "monthly_revenue") = true ->
  py_float (dict_get data "monthly_revenue") = Raise x ->
  errors r !! "monthly_revenue"%string =
    Some "Monthly Revenue must be a valid number"%string.
Proof.
  intros H Ht Hf.
  destruct (validate_monthly_revenue_steps _ _ H)
    as (e0 & e1 & e2 & e3 & H0 & Hreq & H12 & Hfin & Hr).
  destruct (check_financial_unparsed _ _ _ _ _ _ Hfin Ht Hf) as [_ He].
  rewrite Hr, He. reflexivity.
Qed.



Ltac chase :=
  repeat first
    [ rewrite check_choice_frame by discriminate
    | match goal with
      | H : ?a !! ?k = _ |- ?a !! ?k = _ => rewrite H; clear H
      end ];
  try assumption; try reflexivity; try apply lookup_empty.

(** A falsy required value is reported as missing and nothing else is
    checked on it. *)
Lemma required_falsy_reported data r f :
  validate_roi_submission data = Ok r ->
  In f required_fields ->
  truthy (dict_get data f) = false ->
  errors r !! f = Some (field_label f +:+ " is required").
Proof.
  intros H Hin Ht.
  open_validate H.
  repeat (destruct Hin as [<-|Hin]; [|try (destruct Hin; fail)]);
   match goal with
   | |- _ !! ?k = _ =>
       frame_others k;
       repeat match goal with
         | H : check_email _ _ = Ok _ |- _ =>
             rewrite check_email_skip in H by assumption; inversion H; subst; clear H
         | H : check_name _ _ _ = Ok _ |- _ =>
             rewrite check_name_skip in H by assumption; inversion H; subst; clear H
         | H : check_financial _ _ _ = Ok _ |- _ =>
             rewrite check_financial_skip in H by assumption; inversion H; subst; clear H
         | H : check_required _ _ _ = Ok _ |- _ =>
             apply check_required_falsy in H; [|assumption]
         end
   end; chase.
Qed.

Lemma percentage_falsy_skipped data r f :
  validate_roi_submission data = Ok r ->
  In f percentage_fields ->
  truthy (dict_get data f) = false ->
  errors r !! f = None.
Proof.
  intros H Hin Ht.
  open_validate H.
  repeat (destruct Hin as [<-|Hin]; [|try (destruct Hin; fail)]);
   match goal with
   | |- _ !! ?k = _ =>
       frame_others k;
       repeat match goal with
         | H : check_percentage _ _ _ = Ok _ |- _ =>
             rewrite check_percentage_skip in H by assumption; inversion H; subst; clear H
         end;
       chase
   end.
Qed.

(** C10: a falsy value counts as absent.  The guarded numeric checks
    return the error map untouched, a falsy required field (the number 0
    and the empty string are falsy) ends with the message that it is
    required, and a falsy percentage field ends with no error. *)
Theorem falsy_values_treated_as_absent (data : gmap string value) :
  (truthy (VInt 0) = false /\ truthy (VStr "") = false /\
   truthy (VFloat (FFin 0)) = false /\ truthy VNone = false) /\
  (forall f c e, truthy (dict_get data f) = false ->
     check_financial data (f, c) e = Ok e /\ check_percentage data f e = Ok e) /\
  (forall r, validate_roi_submission data = Ok r ->
     (forall f, In f required_fields -> truthy (dict_get data f) = false ->
        errors r !! f = Some (field_label f +:+ " is required")) /\
     (forall f, In f percentage_fields -> truthy (dict_get data f) = false ->
        errors r !! f = None) /\
     (truthy (dict_get data "monthly_revenue") = false ->
        errors r !! "monthly_revenue"%string
        = Some "Monthly Revenue is required"%string)).
Proof.
  split; [repeat split; reflexivity|].
  split.
  { intros f c e Ht. split;
      [apply check_financial_skip | apply check_percentage_skip]; exact Ht. }
  intros r H. split; [|split].
  - intros f Hin Ht. exact (required_falsy_reported _ _ _ H Hin Ht).
  - intros f Hin Ht. exact (percentage_falsy_skipped _ _ _ H Hin Ht).
  - intros Ht.
    rewrite (required_falsy_reported data r "monthly_revenue" H); [reflexivity| |exact Ht].
    simpl. auto.
Qed.

Lemma falsy_values_treated_as_absent_witness :
  exists r, validate_roi_submission (submission_with_revenue (VInt 0)) = Ok r /\
    errors r !! "monthly_revenue"%string
    = Some "Monthly Revenue is required"%string.
Proof.
  destruct (validate_roi_submission_returns (submission_with_revenue (VInt 0)))
    as [r Hr]; [vm_compute; reflexivity|].
  exists r. split; [exact Hr|].
  destruct (falsy_values_treated_as_absent (submission_with_revenue (VInt 0)))
    as (_ & _ & Hres).
  apply (Hres r Hr). vm_compute. reflexivity.
Defined.

Lemma make_result_valid (e : errmap) :
  valid (make_result e) = true <-> errors (make_result e) = ∅.
Proof.
  simpl. rewrite bool_decide_eq_true. apply map_size_empty_iff.
Qed.

Lemma validate_roi_submission_result data r :
  validate_roi_submission data = Ok r -> exists e, r = make_result e.
Proof.
  unfold validate_roi_submission. intros H. inv_bind.
  inversion H. eauto.
Qed.

Lemma validate_calculation_data_result data r :
  validate_calculation_data data = Ok r -> exists e, r = make_result e.
Proof.
  unfold validate_calculation_data. intros H. inv_bind.
  inversion H. eauto.
Qed.

(** C4: a result returned by either validator has [valid] true exactly
    when its error mapping is empty. *)
Theorem valid_iff_no_errors (data : gmap string value) :
  (forall r, validate_roi_submission data = Ok r ->
     (valid r = true <-> errors r = ∅)) /\
  (forall r, validate_calculation_data data = Ok r ->
     (valid r = true <-> errors r = ∅)).
Proof.
  split; intros r H.
  - apply validate_roi_submission_result in H as [e ->]. apply make_result_valid.
  - apply validate_calculation_data_result in H as [e ->]. apply make_result_valid.
Qed.

Lemma valid_iff_no_errors_witness :
  exists r, validate_roi_submission (submission_with_revenue (VInt 5000)) = Ok r /\
    (valid r = true <-> errors r = ∅).
Proof.
  destruct (validate_roi_submission_returns (submission_with_revenue (VInt 5000)))
    as [r Hr]; [vm_compute; reflexivity|].
  exists r. split; [exact Hr|].
  exact (proj1 (valid_iff_no_errors (submission_with_revenue (VInt 5000))) r Hr).
Defined.

(** C3 fails on the code: this submission passes validation, and scoring
    it raises [ValueError] at [int] of the manual hours. *)
Theorem scoring_raises_on_validated_input :
  (exists r, validate_roi_submission submission_bad_hours = Ok r /\
             valid r = true /\ errors r = ∅) /\
  py_int (dict_get_or submission_bad_hours "manual_hours_per_week" (VInt 0))
  = Raise ValueError /\
  calculate_fit_score submission_bad_hours = Raise ValueError /\
  calculate_lead_score submission_bad_hours = Raise ValueError.
Proof.
  split.
  - eexists. split; [vm_compute; reflexivity|]. split; reflexivity.
  - repeat split; vm_compute; reflexivity.
Qed.

(** The cases of the calculation validator when the conversion of the
    revenue does not overflow. *)
Lemma validate_calculation_data_cases (data : gmap string value) :
  let v := dict_get data "monthly_revenue" in
  let only (msg : string) : res validation_result :=
    Ok {| valid := false; errors := {[ "monthly_revenue"%string := msg ]} |} in
  (truthy v = false ->
     validate_calculation_data data
     = only "Monthly revenue is required for calculations"%string) /\
  (forall x, truthy v = true -> py_float v = Raise x -> x <> OverflowError ->
     validate_calculation_data data
     = only "Monthly revenue must be a valid number"%string) /\
  (forall f, truthy v = true -> py_float v = Ok f ->
     (flt_le f 0 = true ->
        validate_calculation_data data
        = only "Monthly revenue must be greater than 0"%string) /\
     (flt_gt f 10000000 = true ->
        validate_calculation_data data
        = only "Monthly revenue seems unusually high"%string) /\
     (flt_gt f 0 = true -> flt_le f 10000000 = true ->
        validate_calculation_data data = Ok {| valid := true; errors := ∅ |})).
Proof.
  intros v only. subst v only. unfold validate_calculation_data.
  split; [|split].
  - intros ->. reflexivity.
  - intros x -> -> Hx. destruct x; try congruence; reflexivity.
  - intros f -> ->. simpl. split; [|split].
    + intros ->. reflexivity.
    + intros Hgt. destruct (flt_le f 0) eqn:Hle; [|rewrite Hgt; reflexivity].
      exfalso. destruct f as [q|[]|]; simpl in *; try discriminate.
      apply negb_true_iff in Hgt. apply Qle_bool_iff in Hle.
      rewrite (proj2 (Qle_bool_iff _ _)) in Hgt; [discriminate|].
      eapply Qle_trans; [exact Hle|]. done.
    + intros Hgt Hle. rewrite (flt_le_not_gt _ _ Hle).
      destruct (flt_le f 0) eqn:Hle0; [|reflexivity].
      apply flt_le_not_gt in Hle0. congruence.
Qed.

(** C9 fails on the code: an integer revenue beyond the range of a double
    is above 10,000,000, yet the validator does not return; [float]
    raises [OverflowError], which the handler does not catch. *)
Theorem calculation_validator_overflow :
  truthy (dict_get huge_revenue "monthly_revenue") = true /\
  py_float (dict_get huge_revenue "monthly_revenue") = Raise OverflowError /\
  validate_calculation_data huge_revenue = Raise OverflowError.
Proof. repeat split; vm_compute; reflexivity. Qed.

(** ** Worked examples *)

(** The sanitizer scenario of the specification. *)
Example sanitize_script_tag :
  sanitize_input (VDict {[ "name"%string := VStr "<script>bob</script>" ]})
  = VDict {[ "name"%string := VStr "scriptbob/script" ]}.
Proof. vm_compute. reflexivity. Qed.

(** A submission without [email] is rejected with one error, under
    [email]. *)
Example missing_email_rejected :
  validate_roi_submission (delete "email"%string (submission_with_revenue (VInt 5000)))
  = Ok {| valid := false;
          errors := {[ "email"%string := "Email is required"%string ]} |}.
Proof. vm_compute. reflexivity. Qed.

(** Conversions of strings. *)
Example float_of_strings :
  py_float (VStr " 1_000.5 ") = Ok (FFin (2001 # 2)) /\
  py_float (VStr "1e400") = Ok (FInf false) /\
  py_float (VStr "-Infinity") = Ok (FInf true) /\
  py_float (VStr "NaN") = Ok FNan /\
  py_float (VStr "12abc") = Raise ValueError /\
  py_float (VStr "") = Raise ValueError /\
  py_int (VStr "1.5") = Raise ValueError /\
  py_int (VStr " -42 ") = Ok (-42) /\
  py_int (VFloat (FFin (-7 # 2))) = Ok (-3).
Proof. repeat split; vm_compute; reflexivity. Qed.

(** NaN is neither below the minimum nor above the maximum: a revenue
    of NaN gets no error, and scores no revenue points. *)
Example nan_revenue_passes :
  validate_roi_submission (submission_with_revenue (VStr "nan"))
  = Ok {| valid := true; errors := ∅ |} /\
  revenue_points FNan = 0.
Proof. split; vm_compute; reflexivity. Qed.

Example patterns_match :
  re_match email_pattern (VStr "a.b+c@mail.example.org") = Ok true /\
  re_match email_pattern (VStr "a@b.c") = Ok false /\
  re_match email_pattern (VStr "a@b") = Ok false /\
  re_match email_pattern (VInt 7) = Raise TypeError /\
  re_match website_pattern (VStr "https://shop.example.com/a?b=1") = Ok true /\
  re_match website_pattern (VStr "ftp://example.com") = Ok false /\
  re_match name_pattern (VStr "Mary-Jane O Neil") = Ok true /\
  re_match name_pattern (VStr "R2D2") = Ok false.
Proof. repeat split; vm_compute; reflexivity. Qed.

(* ===================================================================== *)
(** * Further properties of the code *)
(* ===================================================================== *)

(** ** Follow-up lookups *)

Lemma priorities_unknown (s : string) :
  s <> "Hot"%string -> s <> "Warm"%string -> s <> "Cold"%string ->
  priorities !! s = None /\ follow_up_times !! s = None.
Proof.
  intros H1 H2 H3. unfold priorities, follow_up_times.
  rewrite !list_to_map_cons, !list_to_map_nil.
  rewrite !lookup_insert_ne by congruence. rewrite !lookup_empty. done.
Qed.

(** X1: for the tier assigned to any score, the follow-up time used by
    the route is the timing of the priority entry of the scoring module:
    1 hour from 100 up, 24 hours on 60..99, 3 days below 60. *)
Theorem follow_up_agrees_on_assigned_tiers (score : Z) :
  exists (p : gmap string string) (t : string),
    get_follow_up_priority (VStr (assign_tier score)) = Ok p /\
    get_follow_up_time (VStr (assign_tier score)) = Ok t /\
    p !! "timing"%string = Some t /\
    (t = "1 hour"%string <-> 100 <= score) /\
    (t = "24 hours"%string <-> 60 <= score < 100) /\
    (t = "3 days"%string <-> score < 60).
Proof.
  unfold assign_tier.
  destruct (Z.geb_spec score 100); [|destruct (Z.geb_spec score 60)];
    (do 2 eexists; split; [vm_compute; reflexivity|];
     split; [vm_compute; reflexivity|];
     split; [vm_compute; reflexivity|];
     repeat split; intros; try discriminate; try lia; try reflexivity).
Qed.

(** X2: on a tier that is none of Hot, Warm and Cold the two lookups fall
    back differently: the priority entry is that of Cold, with 3 days,
    while the follow-up time is 24 hours.  An unhashable tier raises
    [TypeError] in both. *)
Theorem follow_up_fallbacks_differ (tier : value) :
  tier <> VStr "Hot" -> tier <> VStr "Warm" -> tier <> VStr "Cold" ->
  (hashable tier = true ->
     get_follow_up_priority tier = get_follow_up_priority (VStr "Cold") /\
     (exists p, get_follow_up_priority tier = Ok p /\
                p !! "timing"%string = Some "3 days"%string) /\
     get_follow_up_time tier = Ok "24 hours"%string) /\
  (hashable tier = false ->
     get_follow_up_priority tier = Raise TypeError /\
     get_follow_up_time tier = Raise TypeError).
Proof.
  intros H1 H2 H3. split; intros Hh.
  - assert (get_follow_up_priority tier = Ok (priorities !!! "Cold"%string) /\
            get_follow_up_time tier = Ok "24 hours"%string) as [Hp Ht].
    { destruct tier; try discriminate; try (split; reflexivity).
      destruct (priorities_unknown s) as [Ep Et]; try congruence.
      unfold get_follow_up_priority, get_follow_up_time, py_table_get.
      rewrite Ep, Et. split; reflexivity. }
    rewrite Hp, Ht. split; [vm_compute; reflexivity|].
    split; [|reflexivity].
    eexists. split; [reflexivity|]. vm_compute. reflexivity.
  - destruct tier; try discriminate; split; reflexivity.
Qed.

Lemma follow_up_fallbacks_differ_witness :
  get_follow_up_priority (VStr "Lukewarm") = get_follow_up_priority (VStr "Cold") /\
  get_follow_up_time (VStr "Lukewarm") = Ok "24 hours"%string.
Proof.
  destruct (follow_up_fallbacks_differ (VStr "Lukewarm")) as [H _];
    try discriminate.
  destruct (H eq_refl) as (Hp & _ & Ht). split; [exact Hp | exact Ht].
Defined.

(** ** What the score depends on *)

Lemma lead_score_parts data n :
  calculate_lead_score data = Ok n <->
  exists d fr o fa fc fb h fs,
    calculate_demographic_score data = Ok d /\
    py_float (dict_get_or data "monthly_revenue" (VInt 0)) = Ok fr /\
    py_int (dict_get_or data "monthly_orders" (VInt 0)) = Ok o /\
    py_float (dict_get_or data "average_order_value" (VInt 0)) = Ok fa /\
    py_float (dict_get_or data "conversion_rate" (VInt 0)) = Ok fc /\
    py_float (dict_get_or data "cart_abandonment_rate" (VInt 0)) = Ok fb /\
    py_int (dict_get_or data "manual_hours_per_week" (VInt 0)) = Ok h /\
    py_float (dict_get_or data "monthly_ad_spend" (VInt 0)) = Ok fs /\
    n = clamp 0 150
          (d + (revenue_points fr + orders_points o + aov_points fa)
             + (conversion_points fc + abandonment_points fb
                + manual_hours_points h + ad_spend_points fs)).
Proof.
  unfold calculate_lead_score, calculate_behavioral_score, calculate_fit_score.
  split.
  - intros H. case_res; try discriminate.
    repeat match goal with
      | E : Ok _ = Ok _ |- _ => inversion E; subst; clear E
      end.
    do 8 eexists. repeat (split; [reflexivity|]).
    unfold clamp. lia.
  - intros (d & fr & o & fa & fc & fb & h & fs & -> & -> & -> & -> & -> & -> & -> & -> & ->).
    cbn [bind]. unfold clamp. f_equal; lia.
Qed.




(** ** Monotonicity of the bands *)

Lemma flt_ge_mono a b c : flt_order a b -> flt_ge a c = true -> flt_ge b c = true.
Proof.
  destruct a as [p|[]|], b as [q|[]|]; simpl; try done.
  intros Hpq Hc. apply Qle_bool_iff. apply Qle_bool_iff in Hc.
  eapply Qle_trans; eassumption.
Qed.

Lemma flt_gt_mono a b c : flt_order a b -> flt_gt a c = true -> flt_gt b c = true.
Proof.
  destruct a as [p|[]|], b as [q|[]|]; simpl; try done.
  intros Hpq Hc. apply negb_true_iff. apply negb_true_iff in Hc.
  destruct (Qle_bool q (inject_Z c)) eqn:E; [|reflexivity].
  apply Qle_bool_iff in E.
  rewrite <- Hc. symmetry. apply Qle_bool_iff. eapply Qle_trans; eassumption.
Qed.

Lemma flt_lt_anti a b c : flt_order a b -> flt_lt b c = true -> flt_lt a c = true.
Proof.
  destruct a as [p|[]|], b as [q|[]|]; simpl; try done.
  intros Hpq Hc. apply negb_true_iff. apply negb_true_iff in Hc.
  destruct (Qle_bool (inject_Z c) p) eqn:E; [|reflexivity].
  apply Qle_bool_iff in E.
  rewrite <- Hc. symmetry. apply Qle_bool_iff. eapply Qle_trans; eassumption.
Qed.

Ltac mono_cases lem H :=
  repeat match goal with
    | |- context [if ?t ?a ?c then _ else _] =>
        lazymatch goal with
        | |- context [t ?b c] =>
            lazymatch a with
            | b => fail
            | _ =>
                let Hc := fresh "Hc" in
                pose proof (lem a b c H) as Hc;
                destruct (t a c), (t b c); try (specialize (Hc eq_refl); discriminate Hc);
                clear Hc
            end
        end
    end.

Lemma revenue_points_mono a b : flt_order a b -> revenue_points a <= revenue_points b.
Proof.
  intros H. unfold revenue_points.
  pose proof (flt_ge_mono a b 100000 H). pose proof (flt_ge_mono a b 50000 H).
  pose proof (flt_ge_mono a b 25000 H). pose proof (flt_ge_mono a b 10000 H).
  pose proof (flt_ge_mono a b 5000 H).
  destruct (flt_ge a 100000), (flt_ge b 100000), (flt_ge a 50000), (flt_ge b 50000),
    (flt_ge a 25000), (flt_ge b 25000), (flt_ge a 10000), (flt_ge b 10000),
    (flt_ge a 5000), (flt_ge b 5000); try lia; intuition discriminate.
Qed.

Lemma aov_points_mono a b : flt_order a b -> aov_points a <= aov_points b.
Proof.
  intros H. unfold aov_points.
  pose proof (flt_ge_mono a b 200 H). pose proof (flt_ge_mono a b 100 H).
  pose proof (flt_ge_mono a b 50 H). pose proof (flt_ge_mono a b 25 H).
  destruct (flt_ge a 200), (flt_ge b 200), (flt_ge a 100), (flt_ge b 100),
    (flt_ge a 50), (flt_ge b 50), (flt_ge a 25), (flt_ge b 25);
    try lia; intuition discriminate.
Qed.

Lemma ad_spend_points_mono a b : flt_order a b -> ad_spend_points a <= ad_spend_points b.
Proof.
  intros H. unfold ad_spend_points.
  pose proof (flt_ge_mono a b 10000 H). pose proof (flt_ge_mono a b 5000 H).
  pose proof (flt_ge_mono a b 2000 H). pose proof (flt_ge_mono a b 500 H).
  destruct (flt_ge a 10000), (flt_ge b 10000), (flt_ge a 5000), (flt_ge b 5000),
    (flt_ge a 2000), (flt_ge b 2000), (flt_ge a 500), (flt_ge b 500);
    try lia; intuition discriminate.
Qed.

Lemma abandonment_points_mono a b :
  flt_order a b -> abandonment_points a <= abandonment_points b.
Proof.
  intros H. unfold abandonment_points.
  pose proof (flt_gt_mono a b 0 H). pose proof (flt_gt_mono a b 70 H).
  pose proof (flt_gt_mono a b 60 H). pose proof (flt_gt_mono a b 50 H).
  pose proof (flt_gt_mono a b 40 H).
  destruct (flt_gt a 0), (flt_gt b 0), (flt_gt a 70), (flt_gt b 70),
    (flt_gt a 60), (flt_gt b 60), (flt_gt a 50), (flt_gt b 50),
    (flt_gt a 40), (flt_gt b 40); try lia; intuition discriminate.
Qed.

Lemma conversion_points_anti a b :
  flt_gt a 0 = true -> flt_order a b ->
  conversion_points b <= conversion_points a.
Proof.
  intros Ha H. unfold conversion_points. rewrite Ha.
  pose proof (flt_lt_anti a b 2 H). pose proof (flt_lt_anti a b 3 H).
  pose proof (flt_lt_anti a b 5 H). pose proof (flt_lt_anti a b 8 H).
  destruct (flt_gt b 0), (flt_lt a 2), (flt_lt b 2), (flt_lt a 3), (flt_lt b 3),
    (flt_lt a 5), (flt_lt b 5), (flt_lt a 8), (flt_lt b 8);
    try lia; intuition discriminate.
Qed.

Lemma orders_points_mono a b : a <= b -> orders_points a <= orders_points b.
Proof.
  intros H. unfold orders_points.
  repeat match goal with
    | |- context [?x >=? ?c] => destruct (Z.geb_spec x c)
    end; lia.
Qed.

Lemma manual_hours_points_mono a b :
  a <= b -> manual_hours_points a <= manual_hours_points b.
Proof.
  intros H. unfold manual_hours_points.
  repeat match goal with
    | |- context [?x >=? ?c] => destruct (Z.geb_spec x c)
    end; lia.
Qed.

Lemma assign_tier_mono n1 n2 :
  n1 <= n2 -> tier_rank (assign_tier n1) <= tier_rank (assign_tier n2).
Proof.
  intros H. unfold assign_tier.
  repeat match goal with
    | |- context [?x >=? ?c] => destruct (Z.geb_spec x c)
    end;
    repeat match goal with
      | |- context [tier_rank ?t] =>
          let r := eval vm_compute in (tier_rank t) in
          change (tier_rank t) with r
      end; lia.
Qed.

Ltac norm_lookups :=
  unfold calculate_demographic_score, dict_get_or, dict_get in *;
  repeat rewrite lookup_insert_eq in *;
  repeat rewrite lookup_insert_ne in * by discriminate;
  cbn [from_option] in *; unfold id in *.

Ltac unify_parts :=
  repeat match goal with
    | H1 : ?x = Ok ?a, H2 : ?x = Ok ?b |- _ =>
        assert (a = b) by congruence; subst b; clear H2
    end.

Ltac open_scores H1 H2 :=
  apply lead_score_parts in H1
    as (d1 & fr1 & o1 & fa1 & fc1 & fb1 & h1 & fs1 &
        Hd1 & Hr1 & Ho1 & Ha1 & Hc1 & Hb1 & Hh1 & Hs1 & ->);
  apply lead_score_parts in H2
    as (d2 & fr2 & o2 & fa2 & fc2 & fb2 & h2 & fs2 &
        Hd2 & Hr2 & Ho2 & Ha2 & Hc2 & Hb2 & Hh2 & Hs2 & ->).

(** X4: with all other fields fixed, a larger monthly revenue, average
    order value, monthly ad spend or cart abandonment rate, or a larger
    number of monthly orders or manual hours, never gives a lower score
    or a lower tier. *)
Theorem score_monotone_in_amounts (data : gmap string value) (f : string)
    (v1 v2 : value) (n1 n2 : Z) :
  (In f ["monthly_revenue"; "average_order_value"; "monthly_ad_spend";
         "cart_abandonment_rate"]%string /\
   exists a b, py_float v1 = Ok a /\ py_float v2 = Ok b /\ flt_order a b)
  \/
  (In f ["monthly_orders"; "manual_hours_per_week"]%string /\
   exists a b, py_int v1 = Ok a /\ py_int v2 = Ok b /\ a <= b) ->
  calculate_lead_score (<[f := v1]> data) = Ok n1 ->
  calculate_lead_score (<[f := v2]> data) = Ok n2 ->
  n1 <= n2 /\ tier_rank (assign_tier n1) <= tier_rank (assign_tier n2).
Proof.
  intros Hf H1 H2.
  assert (n1 <= n2) as Hle; [|split; [exact Hle | apply assign_tier_mono, Hle]].
  open_scores H1 H2.
  destruct Hf as [[Hin (a & b & Ea & Eb & Hab)] | [Hin (a & b & Ea & Eb & Hab)]];
    cbn [In] in Hin;
    repeat (destruct Hin as [<-|Hin]; [|try (destruct Hin; fail)]);
    norm_lookups; unify_parts.
  - pose proof (revenue_points_mono _ _ Hab). unfold clamp. lia.
  - pose proof (aov_points_mono _ _ Hab). unfold clamp. lia.
  - pose proof (ad_spend_points_mono _ _ Hab). unfold clamp. lia.
  - pose proof (abandonment_points_mono _ _ Hab). unfold clamp. lia.
  - pose proof (orders_points_mono _ _ Hab). unfold clamp. lia.
  - pose proof (manual_hours_points_mono _ _ Hab). unfold clamp. lia.
Qed.

Lemma score_monotone_in_amounts_witness :
  exists n1 n2,
    calculate_lead_score (<["monthly_revenue"%string := VInt 4000]> scenario_minimal) = Ok n1 /\
    calculate_lead_score (<["monthly_revenue"%string := VStr "60000"]> scenario_minimal) = Ok n2 /\
    n1 <= n2.
Proof.
  exists 0, 20.
  split; [vm_compute; reflexivity|]. split; [vm_compute; reflexivity|].
  apply (score_monotone_in_amounts scenario_minimal "monthly_revenue"
           (VInt 4000) (VStr "60000") 0 20).
  - left. split; [cbn; tauto|].
    exists (FFin 4000), (FFin 60000).
    split; [vm_compute; reflexivity|]. split; [vm_compute; reflexivity|].
    simpl. discriminate.
  - vm_compute. reflexivity.
  - vm_compute. reflexivity.
Defined.

(** X5: the conversion rate works the other way round: among positive
    rates a larger rate never gives a higher score or tier, and a rate
    that is not above zero earns no conversion points at all. *)
Theorem score_antitone_in_conversion_rate (data : gmap string value)
    (v1 v2 : value) (a b : pyfloat) (n1 n2 : Z) :
  py_float v1 = Ok a -> py_float v2 = Ok b ->
  flt_order a b ->
  calculate_lead_score (<["conversion_rate"%string := v1]> data) = Ok n1 ->
  calculate_lead_score (<["conversion_rate"%string := v2]> data) = Ok n2 ->
  (flt_gt a 0 = true ->
     n2 <= n1 /\ tier_rank (assign_tier n2) <= tier_rank (assign_tier n1)) /\
  (flt_gt a 0 = false -> conversion_points a = 0 /\ n1 <= n2).
Proof.
  intros Ea Eb Hab H1 H2.
  open_scores H1 H2. norm_lookups. unify_parts.
  split; intros Hpos.
  - assert (clamp 0 150
              (d1 + (revenue_points fr1 + orders_points o1 + aov_points fa1)
               + (conversion_points b + abandonment_points fb1
                  + manual_hours_points h1 + ad_spend_points fs1))
            <= clamp 0 150
              (d1 + (revenue_points fr1 + orders_points o1 + aov_points fa1)
               + (conversion_points a + abandonment_points fb1
                  + manual_hours_points h1 + ad_spend_points fs1))) as Hle.
    { pose proof (conversion_points_anti _ _ Hpos Hab). unfold clamp. lia. }
    split; [exact Hle | apply assign_tier_mono, Hle].
  - assert (conversion_points a = 0) as E0
      by (unfold conversion_points; rewrite Hpos; reflexivity).
    split; [exact E0|].
    rewrite E0. pose proof (conversion_points_bounds b). unfold clamp. lia.
Qed.

Lemma score_antitone_in_conversion_rate_witness :
  calculate_lead_score (<["conversion_rate"%string := VInt 6]> scenario_full) = Ok 139 /\
  calculate_lead_score (<["conversion_rate"%string := VInt 1]> scenario_full) = Ok 150 /\
  139 <= 150.
Proof.
  split; [vm_compute; reflexivity|]. split; [vm_compute; reflexivity|].
  apply (score_antitone_in_conversion_rate scenario_full (VInt 1) (VInt 6)
           (FFin 1) (FFin 6) 150 139);
    try (vm_compute; reflexivity).
  simpl. discriminate.
Defined.

(** ** Lead insights *)



Lemma flt_ge_threshold f c c' : c <= c' -> flt_ge f c' = true -> flt_ge f c = true.
Proof.
  intros Hc. destruct f as [q|[]|]; simpl; try done.
  intros H. apply Qle_bool_iff. apply Qle_bool_iff in H.
  eapply Qle_trans; [|exact H]. rewrite <- Zle_Qle. exact Hc.
Qed.

Lemma flt_gt_threshold f c c' : c <= c' -> flt_gt f c' = true -> flt_gt f c = true.
Proof.
  intros Hc. destruct f as [q|[]|]; simpl; try done.
  intros H. apply negb_true_iff. apply negb_true_iff in H.
  destruct (Qle_bool q (inject_Z c)) eqn:E; [|reflexivity].
  apply Qle_bool_iff in E. rewrite <- H. symmetry. apply Qle_bool_iff.
  eapply Qle_trans; [exact E|]. rewrite <- Zle_Qle. exact Hc.
Qed.

Lemma flt_lt_threshold f c c' : c <= c' -> flt_lt f c = true -> flt_lt f c' = true.
Proof.
  intros Hc. destruct f as [q|[]|]; simpl; try done.
  intros H. apply negb_true_iff. apply negb_true_iff in H.
  destruct (Qle_bool (inject_Z c') q) eqn:E; [|reflexivity].
  apply Qle_bool_iff in E. rewrite <- H. symmetry. apply Qle_bool_iff.
  eapply Qle_trans; [|exact E]. rewrite <- Zle_Qle. exact Hc.
Qed.

Lemma industry_points_outside_top :
  map_Forall
    (fun name pts =>
       in_options (VStr name) ["E-commerce"; "SaaS"; "Retail"]%string = false ->
       in_options (VStr name) ["Technology"; "Marketing"]%string = false ->
       0 <= pts <= 8)
    industry_scores.
Proof. apply (bool_decide_unpack _). vm_compute. exact I. Qed.

Lemma app_single_not_nil {A} (l : list A) x : l ++ [x] <> [].
Proof. destruct l; discriminate. Qed.

Lemma ok_app_single_not_nil {A} (l : list A) x : Ok (l ++ [x]) <> Ok [].
Proof. intros H. inversion H as [E]. exact (app_single_not_nil _ _ E). Qed.

(** X7: a lead for which [get_lead_insights] finds nothing to say scores
    at most 103 points: every lead scoring more than that gets at least
    one insight. *)
Theorem no_insight_bounds_score (data : gmap string value)
    (score tier : value) (n : Z) :
  calculate_lead_score data = Ok n ->
  get_lead_insights data score tier = Ok [] ->
  n <= 103.
Proof.
  intros H Hins.
  apply lead_score_parts in H
    as (d & fr & o & fa & fc & fb & h & fs &
        Hd & Hr & Ho & Ha & Hc & Hb & Hh & Hs & ->).
  unfold get_lead_insights in Hins. rewrite Hr, Hc, Hb, Hh in Hins.
  cbn [bind] in Hins.
  (* the five conditions are all false *)
  destruct (manual_hours_points_bounds h) as [_ _].
  assert (Hh10 : (h >=? 10) = false).
  { destruct (h >=? 10); [|reflexivity].
    exfalso. exact (ok_app_single_not_nil _ _ Hins). }
  rewrite Hh10 in Hins.
  assert (Hb60 : flt_gt fb 60 = false).
  { destruct (flt_gt fb 60); [|reflexivity].
    exfalso. exact (ok_app_single_not_nil _ _ Hins). }
  rewrite Hb60 in Hins.
  assert (Hc3 : flt_gt fc 0 && flt_lt fc 3 = false).
  { destruct (flt_gt fc 0 && flt_lt fc 3); [|reflexivity].
    exfalso. exact (ok_app_single_not_nil _ _ Hins). }
  rewrite Hc3 in Hins.
  assert (Hind : forall name, dict_get_or data "industry" (VStr "") = VStr name ->
            in_options (VStr name) ["E-commerce"; "SaaS"; "Retail"]%string = false /\
            in_options (VStr name) ["Technology"; "Marketing"]%string = false).
  { intros name E. rewrite E in Hins.
    destruct (in_options (VStr name) ["E-commerce"; "SaaS"; "Retail"]%string);
      [exfalso; exact (ok_app_single_not_nil _ _ Hins)|].
    destruct (in_options (VStr name) ["Technology"; "Marketing"]%string);
      [exfalso; exact (ok_app_single_not_nil _ _ Hins)|].
    split; reflexivity. }
  assert (Hr10 : flt_ge fr 10000 = false).
  { destruct (flt_ge fr 10000) eqn:E; [|reflexivity]. exfalso.
    destruct (flt_ge fr 50000);
      destruct (dict_get_or data "industry" (VStr "")); 
      repeat match type of Hins with
        | context [if ?c then _ else _] => destruct c
        end;
      exact (ok_app_single_not_nil _ _ Hins). }
  clear Hins.
  (* bounds of the parts *)
  assert (revenue_points fr <= 5).
  { unfold revenue_points.
    pose proof (flt_ge_threshold fr 10000 100000 ltac:(lia)).
    pose proof (flt_ge_threshold fr 10000 50000 ltac:(lia)).
    pose proof (flt_ge_threshold fr 10000 25000 ltac:(lia)).
    rewrite Hr10 in *.
    destruct (flt_ge fr 100000), (flt_ge fr 50000), (flt_ge fr 25000),
      (flt_ge fr 5000); try lia; intuition discriminate. }
  assert (conversion_points fc <= 8).
  { unfold conversion_points.
    pose proof (flt_lt_threshold fc 2 3 ltac:(lia)).
    destruct (flt_gt fc 0); [|lia]. simpl in Hc3. rewrite Hc3 in *.
    destruct (flt_lt fc 2), (flt_lt fc 5), (flt_lt fc 8);
      try lia; intuition discriminate. }
  assert (abandonment_points fb <= 8).
  { unfold abandonment_points.
    pose proof (flt_gt_threshold fb 60 70 ltac:(lia)).
    rewrite Hb60 in *.
    destruct (flt_gt fb 0), (flt_gt fb 70), (flt_gt fb 50), (flt_gt fb 40);
      try lia; intuition discriminate. }
  assert (manual_hours_points h <= 4).
  { unfold manual_hours_points.
    destruct (Z.geb_spec h 10); [discriminate|].
    repeat match goal with
      | |- context [?x >=? ?c] => destruct (Z.geb_spec x c)
      end; lia. }
  assert (d <= 43).
  { unfold calculate_demographic_score in Hd.
    destruct (table_get size_scores _) as [p1|] eqn:E1; [|discriminate].
    destruct (table_get industry_scores _) as [p2|] eqn:E2; [|discriminate].
    destruct (table_get stage_scores _) as [p3|] eqn:E3; [|discriminate].
    cbn [bind] in Hd.
    pose proof (table_get_bounds _ 15 _ _ size_scores_bounds ltac:(lia) E1).
    pose proof (table_get_bounds _ 10 _ _ stage_scores_bounds ltac:(lia) E3).
    assert (p2 <= 8).
    { destruct (dict_get_or data "industry" (VStr "")) eqn:Ev;
        simpl in E2; try (inversion E2; lia).
      destruct (Hind s eq_refl) as [Ht1 Ht2].
      inversion E2; subst.
      destruct (industry_scores !! s) as [v|] eqn:Es; simpl; [|lia].
      apply (industry_points_outside_top s v Es Ht1 Ht2). }
    destruct (truthy _); inversion Hd; lia. }
  pose proof (orders_points_bounds o). pose proof (aov_points_bounds fa).
  pose proof (ad_spend_points_bounds fs).
  pose proof (revenue_points_bounds fr). pose proof (conversion_points_bounds fc).
  pose proof (abandonment_points_bounds fb).
  unfold clamp. lia.
Qed.

Lemma no_insight_bounds_score_witness :
  calculate_lead_score scenario_minimal = Ok 0 /\
  get_lead_insights scenario_minimal VNone VNone = Ok [] /\ 0 <= 103.
Proof.
  split; [vm_compute; reflexivity|]. split; [vm_compute; reflexivity|].
  apply (no_insight_bounds_score scenario_minimal VNone VNone 0);
    vm_compute; reflexivity.
Defined.

(** ** More on validation *)

Ltac frame_step_by k H e e' lem tac :=
  let H2 := fresh "Hframe" in
  assert (H2 : e' !! k = e !! k) by (apply (lem k H); tac);
  clear H.

Ltac frame_all k tac :=
  repeat match goal with
    | H : check_required ?d ?f ?e = Ok ?e' |- _ =>
        frame_step_by k H e e' (check_required_frame d f e e') tac
    | H : check_email ?d ?e = Ok ?e' |- _ =>
        frame_step_by k H e e' (check_email_frame d e e') tac
    | H : check_name ?d ?f ?e = Ok ?e' |- _ =>
        frame_step_by k H e e' (check_name_frame d f e e') tac
    | H : check_financial ?d (?f, ?c) ?e = Ok ?e' |- _ =>
        frame_step_by k H e e' (check_financial_frame d f c e e') tac
    | H : check_phone ?d ?e = Ok ?e' |- _ =>
        frame_step_by k H e e' (check_phone_frame d e e') tac
    | H : check_website ?d ?e = Ok ?e' |- _ =>
        frame_step_by k H e e' (check_website_frame d e e') tac
    | H : check_company ?d ?e = Ok ?e' |- _ =>
        frame_step_by k H e e' (check_company_frame d e e') tac
    | H : check_percentage ?d ?f ?e = Ok ?e' |- _ =>
        frame_step_by k H e e' (check_percentage_frame d f e e') tac
    end;
  repeat rewrite (check_choice_frame _ _ _ _ _ k) in * by tac.

(** X8: the validator reports only under the fourteen field names it
    checks: no other key of the input can appear in the error mapping. *)
Theorem errors_only_under_validated_fields (data : gmap string value)
    (r : validation_result) (k msg : string) :
  validate_roi_submission data = Ok r ->
  errors r !! k = Some msg ->
  In k validated_fields.
Proof.
  intros H Hk.
  destruct (In_dec string_dec k validated_fields) as [Hin|Hout]; [exact Hin|].
  exfalso.
  assert (Hnone : errors r !! k = None); [|congruence].
  clear Hk. open_validate H.
  frame_all k ltac:(intros ->; apply Hout; cbn; tauto).
  repeat match goal with
    | H : ?a !! k = _ |- ?a !! k = _ => rewrite H; clear H
    end.
  apply lookup_empty.
Qed.

Lemma errors_only_under_validated_fields_witness :
  In "monthly_revenue"%string validated_fields.
Proof.
  destruct (validate_roi_submission_returns (submission_with_revenue (VInt 999)))
    as [r Hr]; [vm_compute; reflexivity|].
  apply (errors_only_under_validated_fields
           (submission_with_revenue (VInt 999)) r "monthly_revenue"
           "Monthly Revenue must be at least $1,000" Hr).
  rewrite (monthly_revenue_parsed _ r (FFin 999) Hr); reflexivity.
Defined.

(** What each check has verified when it leaves the error map empty. *)

Ltac kill_insert :=
  match goal with
  | H : Ok (<[_:=_]> _) = Ok ∅ |- _ =>
      let E := fresh "Eins" in
      exfalso; inversion H as [E]; exact (insert_non_empty _ _ _ E)
  | H : <[_:=_]> _ = ∅ |- _ =>
      exfalso; exact (insert_non_empty _ _ _ H)
  end.

Ltac keep_ok :=
  match goal with
  | H : Ok ?e = Ok ∅ |- _ => inversion H; subst; clear H
  end.

Lemma check_required_clean data f e :
  check_required data f e = Ok ∅ ->
  e = ∅ /\ truthy (dict_get data f) = true.
Proof.
  unfold check_required. intros H.
  destruct (truthy (dict_get data f)); simpl in H; [|kill_insert].
  destruct (dict_get data f); try (keep_ok; done).
  destruct (String.eqb _ _); [kill_insert | keep_ok; done].
Qed.

Lemma check_email_clean data e :
  check_email data e = Ok ∅ ->
  e = ∅ /\
  (truthy (dict_get data "email") = true ->
   re_match email_pattern (dict_get data "email") = Ok true).
Proof.
  unfold check_email. intros H.
  destruct (truthy _); [|keep_ok; split; [done | discriminate]].
  destruct (re_match _ _) as [[]|]; simpl in H;
    [keep_ok; done | kill_insert | discriminate].
Qed.

Lemma check_name_clean data f e :
  check_name data f e = Ok ∅ ->
  e = ∅ /\
  (truthy (dict_get data f) = true ->
   exists s, dict_get data f = VStr s /\
     (2 <= String.length s <= 50)%nat /\
     re_match name_pattern (VStr s) = Ok true).
Proof.
  unfold check_name. intros H.
  destruct (truthy _); [|keep_ok; split; [done | discriminate]].
  destruct (py_len _) as [n|] eqn:En; simpl in H; [|discriminate].
  destruct (Z.ltb_spec n 2); [kill_insert|].
  destruct (n >? 50) eqn:E50; [kill_insert|].
  destruct (re_match _ _) as [[]|] eqn:Em; simpl in H;
    [keep_ok | kill_insert | discriminate].
  split; [done|]. intros _.
  destruct (dict_get data f); simpl in Em; try discriminate.
  exists s. simpl in En. inversion En; subst.
  split; [reflexivity|]. split; [|exact Em].
  rewrite Z.gtb_ltb in E50. apply Z.ltb_ge in E50. lia.
Qed.

Lemma check_financial_clean data f cmin cmax e :
  check_financial data (f, (cmin, cmax)) e = Ok ∅ ->
  e = ∅ /\
  (truthy (dict_get data f) = true ->
   exists v, py_float (dict_get data f) = Ok v /\
     flt_lt v cmin = false /\ flt_gt v cmax = false).
Proof.
  unfold check_financial. intros H.
  destruct (truthy _); [|keep_ok; split; [done | discriminate]].
  destruct (py_float _) as [v|[]]; try kill_insert; try discriminate.
  destruct (flt_lt v cmin) eqn:E1; [kill_insert|].
  destruct (flt_gt v cmax) eqn:E2; [kill_insert|].
  keep_ok. split; [done|]. eauto.
Qed.

Lemma check_phone_clean data e :
  check_phone data e = Ok ∅ ->
  e = ∅ /\
  (truthy (dict_get data "phone") = true ->
   exists s, dict_get data "phone" = VStr s /\
     (10 <= String.length (str_filter is_digit s) <= 15)%nat).
Proof.
  unfold check_phone. intros H.
  destruct (truthy _); [|keep_ok; split; [done | discriminate]].
  destruct (dict_get data "phone"); cbn [bind digits_only] in H;
    try discriminate.
  destruct (_ || _) eqn:E; [kill_insert|].
  keep_ok. split; [done|]. intros _. exists s. split; [reflexivity|].
  apply orb_false_elim in E as [E10 E15].
  apply Z.ltb_ge in E10. rewrite Z.gtb_ltb in E15. apply Z.ltb_ge in E15. lia.
Qed.

Lemma check_website_clean data e :
  check_website data e = Ok ∅ ->
  e = ∅ /\
  (truthy (dict_get data "website") = true ->
   re_match website_pattern (dict_get data "website") = Ok true).
Proof.
  unfold check_website. intros H.
  destruct (truthy _); [|keep_ok; split; [done | discriminate]].
  destruct (re_match _ _) as [[]|]; simpl in H;
    [keep_ok; done | kill_insert | discriminate].
Qed.

Lemma check_company_clean data e :
  check_company data e = Ok ∅ ->
  e = ∅ /\
  (truthy (dict_get data "company") = true ->
   exists n, py_len (dict_get data "company") = Ok n /\ n <= 100).
Proof.
  unfold check_company. intros H.
  destruct (truthy _); [|keep_ok; split; [done | discriminate]].
  destruct (py_len _) as [n|]; simpl in H; [|discriminate].
  destruct (n >? 100) eqn:E; [kill_insert|].
  keep_ok. split; [done|]. intros _. exists n. split; [reflexivity|].
  rewrite Z.gtb_ltb in E. apply Z.ltb_ge in E. exact E.
Qed.

Lemma check_choice_clean data f options message (e : errmap) :
  check_choice data f options message e = ∅ ->
  e = ∅ /\
  (truthy (dict_get data f) = true ->
   in_options (dict_get data f) options = true).
Proof.
  unfold check_choice. intros H.
  destruct (truthy _); simpl in H; [|split; [done | discriminate]].
  destruct (in_options _ _); simpl in H; [done | kill_insert].
Qed.

Lemma check_percentage_clean data f e :
  check_percentage data f e = Ok ∅ ->
  e = ∅ /\
  (truthy (dict_get data f) = true ->
   exists v, py_float (dict_get data f) = Ok v /\
     flt_lt v 0 = false /\ flt_gt v 100 = false).
Proof.
  unfold check_percentage. intros H.
  destruct (truthy _); [|keep_ok; split; [done | discriminate]].
  destruct (py_float _) as [v|[]]; try kill_insert; try discriminate.
  destruct (flt_lt v 0) eqn:E1; simpl in H; [kill_insert|].
  destruct (flt_gt v 100) eqn:E2; [kill_insert|].
  keep_ok. split; [done|]. eauto.
Qed.

Ltac clean_back :=
  repeat match goal with
    | H : check_percentage _ _ _ = Ok ∅ |- _ =>
        apply check_percentage_clean in H as [? ?]
    | H : check_choice _ _ _ _ _ = ∅ |- _ =>
        apply check_choice_clean in H as [? ?]
    | H : check_company _ _ = Ok ∅ |- _ =>
        apply check_company_clean in H as [? ?]
    | H : check_website _ _ = Ok ∅ |- _ =>
        apply check_website_clean in H as [? ?]
    | H : check_phone _ _ = Ok ∅ |- _ =>
        apply check_phone_clean in H as [? ?]
    | H : check_financial _ _ _ = Ok ∅ |- _ =>
        apply check_financial_clean in H as [? ?]
    | H : check_name _ _ _ = Ok ∅ |- _ =>
        apply check_name_clean in H as [? ?]
    | H : check_email _ _ = Ok ∅ |- _ =>
        apply check_email_clean in H as [? ?]
    | H : check_required _ _ _ = Ok ∅ |- _ =>
        apply check_required_clean in H as [? ?]
    | H : ?e = ∅ |- _ => is_var e; subst e
    end.

(** X9: what acceptance guarantees.  When the validator returns
    [valid = True], every required field is truthy, the email matches the
    email pattern, both names are strings of 2 to 50 characters matching
    the name pattern, every financial field converts to a float that is
    neither below its minimum nor above its maximum, and every optional
    field is either falsy or passed its own check. *)
Theorem accepted_submission_guarantees (data : gmap string value)
    (r : validation_result) :
  validate_roi_submission data = Ok r ->
  valid r = true ->
  (forall f, In f required_fields -> truthy (dict_get data f) = true) /\
  re_match email_pattern (dict_get data "email") = Ok true /\
  (forall f, In f ["first_name"; "last_name"]%string ->
     exists s, dict_get data f = VStr s /\
       (2 <= String.length s <= 50)%nat /\
       re_match name_pattern (VStr s) = Ok true) /\
  (forall f cmin cmax, In (f, (cmin, cmax)) financial_fields ->
     exists v, py_float (dict_get data f) = Ok v /\
       flt_lt v cmin = false /\ flt_gt v cmax = false) /\
  (truthy (dict_get data "phone") = true ->
     validate_phone (dict_get data "phone") = Ok true) /\
  (truthy (dict_get data "website") = true ->
     validate_url (dict_get data "website") = Ok true) /\
  (truthy (dict_get data "company") = true ->
     exists n, py_len (dict_get data "company") = Ok n /\ n <= 100) /\
  (truthy (dict_get data "industry") = true ->
     in_options (dict_get data "industry") valid_industries = true) /\
  (truthy (dict_get data "business_stage") = true ->
     in_options (dict_get data "business_stage") valid_stages = true) /\
  (truthy (dict_get data "company_size") = true ->
     in_options (dict_get data "company_size") valid_sizes = true) /\
  (forall f, In f percentage_fields -> truthy (dict_get data f) = true ->
     exists v, py_float (dict_get data f) = Ok v /\
       flt_lt v 0 = false /\ flt_gt v 100 = false).
Proof.
  intros H Hv.
  destruct (validate_roi_submission_result _ _ H) as [e0 ->].
  apply make_result_valid in Hv. simpl in Hv. subst e0.
  unfold validate_roi_submission in H.
  cbn [for_each required_fields financial_fields percentage_fields] in H.
  inv_bind.
  assert (Hfinal : errors (make_result ∅) = ∅) by reflexivity.
  match type of H with
  | Ok (make_result ?x) = _ =>
      assert (x = ∅) by (inversion H; reflexivity); subst x; clear H Hfinal
  end.
  repeat match goal with
    | E : Ok _ = Ok _ |- _ => inversion E; subst; clear E
    end.
  clean_back.
  assert (Hreq : forall f, In f required_fields -> truthy (dict_get data f) = true).
  { intros f Hin. cbn [In required_fields] in Hin.
    repeat (destruct Hin as [<-|Hin]; [assumption|]). destruct Hin. }
  split; [exact Hreq|].
  split; [auto|].
  split.
  { intros f Hin. cbn [In] in Hin.
    repeat (destruct Hin as [<-|Hin]; [auto|]). destruct Hin. }
  split.
  { intros f cmin cmax Hin. cbn [In financial_fields] in Hin.
    repeat (destruct Hin as [Heq|Hin];
            [inversion Heq; subst; clear Heq;
             match goal with
             | Hc : truthy (dict_get data ?k) = true -> exists v, py_float _ = _ /\ _ |- context [dict_get data ?k] =>
                 apply Hc, Hreq; cbn; tauto
             end|]).
    destruct Hin. }
  split.
  { intros Ht.
    match goal with
    | Hc : _ -> exists s, dict_get data "phone" = _ /\ _ |- _ =>
        destruct (Hc Ht) as (s & Es & Hlen)
    end.
    unfold validate_phone. rewrite Ht, Es. simpl.
    f_equal. apply andb_true_intro. split; [apply Z.leb_le | apply Z.leb_le]; lia. }
  split.
  { intros Ht. unfold validate_url. rewrite Ht. simpl. auto. }
  repeat split; auto.
  intros f Hin. cbn [In percentage_fields] in Hin.
  repeat (destruct Hin as [<-|Hin]; [auto|]). destruct Hin.
Qed.

Lemma accepted_submission_guarantees_witness :
  re_match email_pattern (dict_get (submission_with_revenue (VInt 5000)) "email")
  = Ok true.
Proof.
  destruct (validate_roi_submission_returns (submission_with_revenue (VInt 5000)))
    as [r Hr]; [vm_compute; reflexivity|].
  assert (Hv : valid r = true).
  { assert (E : validate_roi_submission (submission_with_revenue (VInt 5000))
               = Ok {| valid := true; errors := ∅ |}) by (vm_compute; reflexivity).
    rewrite E in Hr. inversion Hr. reflexivity. }
  exact (proj1 (proj2 (accepted_submission_guarantees _ r Hr Hv))).
Defined.

Lemma accepted_revenue data r :
  validate_roi_submission data = Ok r ->
  valid r = true ->
  truthy (dict_get data "monthly_revenue") = true /\
  exists v, py_float (dict_get data "monthly_revenue") = Ok v /\
    flt_lt v 1000 = false /\ flt_gt v 10000000 = false.
Proof.
  intros H Hv.
  assert (Hnone : errors r !! "monthly_revenue"%string = None).
  { destruct (validate_roi_submission_result _ _ H) as [e ->].
    apply make_result_valid in Hv. rewrite Hv. apply lookup_empty. }
  destruct (truthy (dict_get data "monthly_revenue")) eqn:Ht.
  - split; [reflexivity|].
    destruct (py_float (dict_get data "monthly_revenue")) as [v|x] eqn:Ev.
    + exists v. split; [reflexivity|].
      rewrite (monthly_revenue_parsed _ _ _ H Ht Ev) in Hnone.
      destruct (flt_lt v 1000); [discriminate|].
      destruct (flt_gt v 10000000); [discriminate|]. split; reflexivity.
    + rewrite (monthly_revenue_unparsed _ _ _ H Ht Ev) in Hnone. discriminate.
  - rewrite (required_falsy_reported _ _ "monthly_revenue" H) in Hnone;
      [discriminate | cbn; tauto | exact Ht].
Qed.

(** X10: a submission accepted by the full validator is accepted by the
    calculation validator as well. *)
Theorem accepted_submission_passes_calculation_check (data : gmap string value)
    (r : validation_result) :
  validate_roi_submission data = Ok r ->
  valid r = true ->
  validate_calculation_data data = Ok {| valid := true; errors := ∅ |}.
Proof.
  intros H Hv.
  destruct (accepted_revenue _ _ H Hv) as (Ht & v & Ev & Hlo & Hhi).
  unfold validate_calculation_data. rewrite Ht, Ev. simpl.
  assert (flt_le v 0 = false) as ->.
  { destruct v as [q|[]|]; simpl in *; try done.
    apply negb_false_iff in Hlo. apply Qle_bool_iff in Hlo.
    destruct (Qle_bool q (inject_Z 0)) eqn:E; [|reflexivity].
    apply Qle_bool_iff in E. exfalso.
    assert (inject_Z 1000 <= inject_Z 0)%Q as Hbad by (eapply Qle_trans; eassumption).
    rewrite <- Zle_Qle in Hbad. lia. }
  rewrite Hhi. reflexivity.
Qed.

Lemma accepted_submission_passes_calculation_check_witness :
  validate_calculation_data (submission_with_revenue (VInt 5000))
  = Ok {| valid := true; errors := ∅ |}.
Proof.
  destruct (validate_roi_submission_returns (submission_with_revenue (VInt 5000)))
    as [r Hr]; [vm_compute; reflexivity|].
  apply (accepted_submission_passes_calculation_check _ r Hr).
  assert (E : validate_roi_submission (submission_with_revenue (VInt 5000))
             = Ok {| valid := true; errors := ∅ |}) by (vm_compute; reflexivity).
  rewrite E in Hr. inversion Hr. reflexivity.
Defined.

(** ** Characters of matched strings *)

Lemma dead_not_nullable r : dead r = true -> nullable r = false.
Proof.
  induction r; simpl; try done.
  - intros [H|H]%orb_prop; [rewrite IHr1 | rewrite IHr2]; auto.
    apply andb_false_r.
  - intros [H1 H2]%andb_prop. rewrite IHr1, IHr2; auto.
Qed.

Lemma dead_deriv r c : dead r = true -> dead (deriv c r) = true.
Proof.
  induction r; simpl; try done.
  - intros [H|H]%orb_prop.
    + rewrite (dead_not_nullable _ H). simpl. rewrite IHr1; auto.
    + destruct (nullable r1); simpl; rewrite ?(IHr2 H), ?H, ?orb_true_r;
        reflexivity.
  - intros [H1 H2]%andb_prop. rewrite IHr1, IHr2; auto.
Qed.

Lemma dead_fullmatch r s : dead r = true -> fullmatch r s = false.
Proof.
  revert r. induction s as [|c s IH]; intros r H; simpl.
  - apply dead_not_nullable, H.
  - apply IH, dead_deriv, H.
Qed.

Lemma rejected_deriv_dead P r c :
  classes_in P r -> P c = false -> dead (deriv c r) = true.
Proof.
  intros Hr Hc. induction r; simpl in *; try done.
  - destruct (p c) eqn:E; [|done]. rewrite (Hr c E) in Hc. discriminate.
  - destruct Hr as [H1 H2].
    destruct (nullable r1); simpl; rewrite IHr1; auto.
  - destruct Hr as [H1 H2]. rewrite IHr1, IHr2; auto.
  - rewrite IHr; auto.
Qed.

Lemma classes_in_deriv P r c : classes_in P r -> classes_in P (deriv c r).
Proof.
  induction r; simpl; try done.
  - intros _. destruct (p c); done.
  - intros [H1 H2]. destruct (nullable r1); simpl; auto.
  - intros [H1 H2]. auto.
  - intros H. auto.
Qed.

Lemma fullmatch_chars P r s :
  classes_in P r -> fullmatch r s = true -> str_all P s = true.
Proof.
  revert r. induction s as [|c s IH]; intros r Hr Hm; simpl in *; [done|].
  destruct (P c) eqn:Hc.
  - simpl. eapply IH; [apply classes_in_deriv, Hr | exact Hm].
  - rewrite (dead_fullmatch _ _ (rejected_deriv_dead P r c Hr Hc)) in Hm.
    discriminate.
Qed.

Lemma append_cons c r t : String c r +:+ t = String c (r +:+ t).
Proof. reflexivity. Qed.

Lemma append_nil t : ""%string +:+ t = t.
Proof. reflexivity. Qed.

Lemma chop_newline_app s s' :
  chop_newline s = Some s' -> s = s' +:+ String (ascii_of_nat 10) EmptyString.
Proof.
  revert s'. induction s as [|c r IH]; intros s'; simpl; [done|].
  destruct r as [|c' r'].
  - destruct (code c =? 10) eqn:E; [|done]. intros [= <-]. rewrite append_nil.
    apply Z.eqb_eq in E. f_equal.
    rewrite <- (ascii_N_embedding c). unfold code in E.
    replace (N_of_ascii c) with 10%N by lia. reflexivity.
  - destruct (chop_newline (String c' r')) as [t|] eqn:Et; simpl; [|done].
    intros [= <-]. rewrite append_cons. f_equal. apply IH. reflexivity.
Qed.

Lemma str_all_app p s t :
  str_all p (s +:+ t) = str_all p s && str_all p t.
Proof.
  induction s as [|c r IH]; [reflexivity|].
  rewrite append_cons. simpl. rewrite IH. apply andb_assoc.
Qed.

Lemma email_pattern_classes : classes_in email_char email_pattern.
Proof.
  unfold email_pattern, RPlus, RChr. cbn [classes_in].
  repeat split; intros c;
    destruct c as [[] [] [] [] [] [] [] []]; vm_compute; congruence.
Qed.

Lemma email_char_safe c : email_char c = true -> safe_char c = true.
Proof.
  destruct c as [[] [] [] [] [] [] [] []]; vm_compute; congruence.
Qed.

Lemma email_char_not_space c : email_char c = true -> is_space c = false.
Proof.
  destruct c as [[] [] [] [] [] [] [] []]; vm_compute; congruence.
Qed.

Lemma str_all_impl (p q : ascii -> bool) s :
  (forall c, p c = true -> q c = true) -> str_all p s = true -> str_all q s = true.
Proof.
  intros Hpq. induction s as [|c r IH]; simpl; [done|].
  intros [Hc Hr]%andb_prop. rewrite (Hpq c Hc). simpl. auto.
Qed.

(** A string accepted by the email pattern, up to a final newline. *)
Lemma matched_email_shape s :
  re_match email_pattern (VStr s) = Ok true ->
  exists c r, s = String c r /\ email_char c = true /\
    str_all safe_char s = true.
Proof.
  unfold re_match. intros H. injection H as Hm.
  assert (Hshape : forall t, fullmatch email_pattern t = true ->
            exists c r, t = String c r /\ email_char c = true /\
                        str_all email_char t = true).
  { intros t Ht.
    pose proof (fullmatch_chars _ _ _ email_pattern_classes Ht) as Hall.
    destruct t as [|c r]; [vm_compute in Ht; discriminate|].
    exists c, r. split; [reflexivity|]. split; [|exact Hall].
    simpl in Hall. apply andb_prop in Hall as [Hc _]. exact Hc. }
  apply orb_prop in Hm as [Hm|Hm].
  - destruct (Hshape s Hm) as (c & r & -> & Hc & Hall).
    exists c, r. split; [reflexivity|]. split; [exact Hc|].
    eapply str_all_impl; [apply email_char_safe | exact Hall].
  - destruct (chop_newline s) as [t|] eqn:Et; [|discriminate].
    destruct (Hshape t Hm) as (c & r & -> & Hc & Hall).
    apply chop_newline_app in Et. subst s.
    exists c, (r +:+ String (ascii_of_nat 10) EmptyString).
    split; [reflexivity|]. split; [exact Hc|].
    rewrite str_all_app.
    rewrite (str_all_impl _ _ _ email_char_safe Hall). reflexivity.
Qed.

Lemma rstrip_nonempty c r : is_space c = false -> rstrip (String c r) <> ""%string.
Proof.
  intros Hc. simpl. destruct (rstrip r); [rewrite Hc|]; discriminate.
Qed.

Lemma matched_email_not_blank s :
  re_match email_pattern (VStr s) = Ok true -> str_strip s <> ""%string.
Proof.
  intros H. destruct (matched_email_shape s H) as (c & r & -> & Hc & _).
  apply email_char_not_space in Hc.
  unfold str_strip. simpl lstrip. rewrite Hc. apply rstrip_nonempty, Hc.
Qed.

(** X11: an address accepted by [validate_email] holds none of the
    characters the sanitizer removes, so [sanitize_input] leaves it as it
    is when it has at most 1000 characters, and it is accepted again. *)
Theorem accepted_email_survives_sanitizing (s : string) :
  validate_email (VStr s) = Ok true ->
  (String.length s <= 1000)%nat ->
  str_all safe_char s = true /\
  sanitize_input (VStr s) = VStr s /\
  validate_email (sanitize_input (VStr s)) = Ok true.
Proof.
  intros Hv Hlen.
  assert (Hm : re_match email_pattern (VStr s) = Ok true).
  { unfold validate_email in Hv. destruct (negb _); [discriminate | exact Hv]. }
  destruct (matched_email_shape s Hm) as (_ & _ & _ & _ & Hsafe).
  assert (Hsan : sanitize_input (VStr s) = VStr s).
  { change (sanitize_input (VStr s))
      with (VStr (str_take 1000 (strip_dangerous s))).
    unfold strip_dangerous.
    rewrite (str_filter_id (fun c => negb (dangerous c)) s Hsafe).
    rewrite (str_take_id _ _ Hlen). reflexivity. }
  rewrite Hsan. auto.
Qed.

Lemma accepted_email_survives_sanitizing_witness :
  sanitize_input (VStr "ann@example.com") = VStr "ann@example.com".
Proof.
  apply (accepted_email_survives_sanitizing "ann@example.com").
  - vm_compute. reflexivity.
  - vm_compute. lia.
Defined.

(** ** The stand-alone validators and the form validator *)

Lemma validate_email_steps data r :
  validate_roi_submission data = Ok r ->
  exists e0 e1 e2 e3 : errmap,
    e0 !! "email"%string = None /\
    check_required data "email" e0 = Ok e1 /\
    e2 !! "email"%string = e1 !! "email"%string /\
    check_email data e2 = Ok e3 /\
    errors r !! "email"%string = e3 !! "email"%string.
Proof.
  intros H. open_validate H. frame_others "email"%string.
  do 4 eexists.
  split; [|split; [eassumption|split; [|split; [eassumption|]]]].
  - rewrite <- (lookup_empty (M := gmap string) (A := string) "email"%string).
    congruence.
  - congruence.
  - chase.
Qed.

Lemma validate_phone_steps data r :
  validate_roi_submission data = Ok r ->
  exists e0 e1 : errmap,
    e0 !! "phone"%string = None /\
    check_phone data e0 = Ok e1 /\
    errors r !! "phone"%string = e1 !! "phone"%string.
Proof.
  intros H. open_validate H. frame_others "phone"%string.
  do 2 eexists.
  split; [|split; [eassumption|]].
  - chase.
  - chase.
Qed.

Lemma validate_website_steps data r :
  validate_roi_submission data = Ok r ->
  exists e0 e1 : errmap,
    e0 !! "website"%string = None /\
    check_website data e0 = Ok e1 /\
    errors r !! "website"%string = e1 !! "website"%string.
Proof.
  intros H. open_validate H. frame_others "website"%string.
  do 2 eexists.
  split; [|split; [eassumption|]].
  - chase.
  - chase.
Qed.

Lemma check_required_lookup data f e e' :
  check_required data f e = Ok e' ->
  e !! f = None ->
  (e' !! f = None <->
   truthy (dict_get data f) = true /\
   (forall s, dict_get data f = VStr s -> str_strip s <> ""%string)).
Proof.
  unfold check_required. intros H He.
  destruct (truthy (dict_get data f)); simpl in H.
  - destruct (dict_get data f) eqn:Ev;
      try (inversion H; subst; split; [intros _; split; [done | congruence] | done]).
    destruct (String.eqb_spec (str_strip s) ""); inversion H; subst.
    + rewrite lookup_insert_eq. split; [done|].
      intros [_ Hs]. exfalso. exact (Hs s eq_refl e0).
    + split; [|done]. intros _. split; [done|]. intros s' [= <-]. done.
  - inversion H; subst. rewrite lookup_insert_eq. split; [done | intros [? _]; done].
Qed.

Lemma check_email_lookup data e e' :
  check_email data e = Ok e' ->
  (e' !! "email"%string = None <->
   e !! "email"%string = None /\
   (truthy (dict_get data "email") = true ->
    re_match email_pattern (dict_get data "email") = Ok true)).
Proof.
  unfold check_email. intros H.
  destruct (truthy _).
  - destruct (re_match _ _) as [[]|]; simpl in H; inversion H; subst.
    + split; [intros ->; done | intros [-> _]; done].
    + rewrite lookup_insert_eq. split; [done|]. intros [_ Hm].
      specialize (Hm eq_refl). discriminate.
  - inversion H; subst.
    split; [intros ->; split; [done | discriminate] | intros [-> _]; done].
Qed.

Lemma phone_length_test n :
  (n <? 10) || (n >? 15) = negb ((10 <=? n) && (n <=? 15)).
Proof.
  rewrite Z.gtb_ltb.
  destruct (Z.ltb_spec n 10), (Z.ltb_spec 15 n), (Z.leb_spec 10 n),
    (Z.leb_spec n 15); simpl; try reflexivity; lia.
Qed.

Lemma check_phone_lookup data e e' :
  check_phone data e = Ok e' ->
  e !! "phone"%string = None ->
  (e' !! "phone"%string = None <->
   validate_phone (dict_get data "phone") = Ok true).
Proof.
  unfold check_phone, validate_phone. intros H He.
  destruct (truthy _); simpl.
  - destruct (dict_get data "phone"); cbn [bind digits_only] in *;
      try discriminate.
    rewrite phone_length_test in H.
    destruct ((10 <=? _) && (_ <=? 15)); simpl in H; inversion H; subst.
    + split; done.
    + rewrite lookup_insert_eq. split; [done | intros [=]].
  - inversion H; subst. split; done.
Qed.

Lemma check_website_lookup data e e' :
  check_website data e = Ok e' ->
  e !! "website"%string = None ->
  (e' !! "website"%string = None <->
   validate_url (dict_get data "website") = Ok true).
Proof.
  unfold check_website, validate_url. intros H He.
  destruct (truthy _); simpl.
  - destruct (re_match _ _) as [[]|]; simpl in H; inversion H; subst.
    + split; done.
    + rewrite lookup_insert_eq. split; [done | intros [=]].
  - inversion H; subst. split; done.
Qed.

(** X12: the stand-alone validators of the security module decide as the
    form validator does: in every result it returns, there is no error
    under [email], [phone] or [website] exactly when [validate_email],
    [validate_phone] or [validate_url] accepts the value of that field. *)
Theorem standalone_validators_agree (data : gmap string value)
    (r : validation_result) :
  validate_roi_submission data = Ok r ->
  (errors r !! "email"%string = None <->
   validate_email (dict_get data "email") = Ok true) /\
  (errors r !! "phone"%string = None <->
   validate_phone (dict_get data "phone") = Ok true) /\
  (errors r !! "website"%string = None <->
   validate_url (dict_get data "website") = Ok true).
Proof.
  intros H. split; [|split].
  - destruct (validate_email_steps _ _ H)
      as (e0 & e1 & e2 & e3 & H0 & Hreq & H12 & Hem & ->).
    rewrite (check_email_lookup _ _ _ Hem), H12.
    rewrite (check_required_lookup _ _ _ _ Hreq H0).
    unfold validate_email. split.
    + intros [[Ht _] Hm]. rewrite Ht. simpl. auto.
    + intros Hv. destruct (truthy (dict_get data "email")) eqn:Ht;
        simpl in Hv; [|discriminate].
      split; [|auto]. split; [reflexivity|].
      intros s Es. rewrite Es in Hv. apply matched_email_not_blank, Hv.
  - destruct (validate_phone_steps _ _ H) as (e0 & e1 & H0 & Hph & ->).
    exact (check_phone_lookup _ _ _ Hph H0).
  - destruct (validate_website_steps _ _ H) as (e0 & e1 & H0 & Hw & ->).
    exact (check_website_lookup _ _ _ Hw H0).
Qed.

Lemma standalone_validators_agree_witness :
  validate_email (dict_get (submission_with_revenue (VInt 5000)) "email") = Ok true.
Proof.
  destruct (validate_roi_submission_returns (submission_with_revenue (VInt 5000)))
    as [r Hr]; [vm_compute; reflexivity|].
  apply (proj1 (standalone_validators_agree _ r Hr)).
  assert (E : validate_roi_submission (submission_with_revenue (VInt 5000))
             = Ok {| valid := true; errors := ∅ |}) by (vm_compute; reflexivity).
  rewrite E in Hr. inversion Hr. reflexivity.
Defined.

(** ** Repeated sanitizing of form data *)

Lemma lstrip_no_leading_space s : no_leading_space (lstrip s) = true.
Proof.
  induction s as [|c r IH]; simpl; [done|].
  destruct (is_space c) eqn:E; [exact IH|]. simpl. rewrite E. done.
Qed.

Lemma lstrip_fixed s : no_leading_space s = true -> lstrip s = s.
Proof.
  destruct s as [|c r]; simpl; [done|].
  intros H. apply negb_true_iff in H. rewrite H. done.
Qed.

Lemma rstrip_no_leading_space s :
  no_leading_space s = true -> no_leading_space (rstrip s) = true.
Proof.
  destruct s as [|c r]; simpl; [done|]. intros H.
  destruct (rstrip r); [|exact H].
  apply negb_true_iff in H. rewrite H. simpl. rewrite H. done.
Qed.

Lemma str_take_no_leading_space n s :
  no_leading_space s = true -> no_leading_space (str_take n s) = true.
Proof. destruct n, s; simpl; auto. Qed.

Lemma rstrip_idempotent s : rstrip (rstrip s) = rstrip s.
Proof.
  induction s as [|c r IH]; simpl; [done|].
  destruct (rstrip r) as [|a b] eqn:E.
  - destruct (is_space c) eqn:Ec; simpl; [done|]. rewrite Ec. done.
  - simpl in *. rewrite IH. done.
Qed.

Lemma rstrip_length s : (String.length (rstrip s) <= String.length s)%nat.
Proof.
  induction s as [|c r IH]; simpl; [lia|].
  destruct (rstrip r); [destruct (is_space c)|]; simpl in *; lia.
Qed.

(** A cleaned string: safe, within the limit, without leading space. *)
Lemma clean_of_cleaned n t :
  str_all safe_char t = true ->
  (String.length t <= n)%nat ->
  no_leading_space t = true ->
  str_take n (str_strip (strip_dangerous t)) = rstrip t.
Proof.
  intros Hsafe Hlen Hlead. unfold strip_dangerous, str_strip.
  rewrite (str_filter_id (fun c => negb (dangerous c)) t Hsafe).
  rewrite (lstrip_fixed _ Hlead).
  apply str_take_id. pose proof (rstrip_length t). lia.
Qed.

Lemma sanitize_field_twice key v :
  sanitize_field key (sanitize_field key (sanitize_field key v))
  = sanitize_field key (sanitize_field key v).
Proof.
  destruct v; try reflexivity.
  unfold sanitize_field.
  set (n := field_limit key).
  set (t := str_take n (str_strip (strip_dangerous s))).
  assert (Hsafe : str_all safe_char t = true)
    by (apply str_take_all, rstrip_all, lstrip_all, str_filter_all).
  assert (Hlen : (String.length t <= n)%nat) by apply str_take_length.
  assert (Hlead : no_leading_space t = true)
    by (apply str_take_no_leading_space, rstrip_no_leading_space,
          lstrip_no_leading_space).
  rewrite (clean_of_cleaned n t Hsafe Hlen Hlead).
  rewrite (clean_of_cleaned n (rstrip t)).
  - rewrite rstrip_idempotent. reflexivity.
  - apply rstrip_all, Hsafe.
  - pose proof (rstrip_length t). lia.
  - apply rstrip_no_leading_space, Hlead.
Qed.

Lemma sanitize_form_data_lookup (data : gmap string value) key :
  sanitize_form_data data !! key = sanitize_field key <$> data !! key.
Proof.
  unfold sanitize_form_data. rewrite map_lookup_imap.
  destruct (data !! key); reflexivity.
Qed.

(** X13: [sanitize_form_data] keeps the keys of its input and settles
    after two passes: a third pass changes nothing.  One pass is not
    always enough, because cutting a string to its limit can leave blanks
    at its end that the next pass trims. *)
Theorem sanitize_form_data_settles (data : gmap string value) :
  dom (sanitize_form_data data) = dom data /\
  sanitize_form_data (sanitize_form_data (sanitize_form_data data))
  = sanitize_form_data (sanitize_form_data data) /\
  sanitize_form_data (sanitize_form_data padded_phone)
  <> sanitize_form_data padded_phone.
Proof.
  split; [|split].
  - apply set_eq. intros k. rewrite !elem_of_dom, sanitize_form_data_lookup.
    destruct (data !! k); simpl; split; intros [? ?]; eauto; discriminate.
  - apply map_eq. intros k. rewrite !sanitize_form_data_lookup.
    destruct (data !! k) as [v|]; simpl; [|reflexivity].
    f_equal. apply sanitize_field_twice.
  - intros H.
    assert (E : sanitize_form_data (sanitize_form_data padded_phone) !! "phone"%string
              = sanitize_form_data padded_phone !! "phone"%string)
      by (rewrite H; reflexivity).
    vm_compute in E. discriminate.
Qed.

(** ** Rate limiting *)

Lemma drop_expired_suffix {T} (expired : T -> T -> bool) now (q : list T) :
  drop_expired expired now q `suffix_of` q.
Proof.
  induction q as [|t q IH]; simpl; [done|].
  destruct (expired now t); [|done]. by apply suffix_cons_r.
Qed.


Lemma drop_expired_length {T} (expired : T -> T -> bool) now (q : list T) :
  (List.length (drop_expired expired now q) <= List.length q)%nat.
Proof. apply suffix_length, drop_expired_suffix. Qed.

Lemma rate_limit_run_snoc {T} (expired : T -> T -> bool) max_requests calls
    (ip : string) (now : T) storage :
  rate_limit_run expired max_requests (calls ++ [(ip, now)]) storage
  = (rate_limit_call expired max_requests ip now
       (rate_limit_run expired max_requests calls storage)).1.
Proof. unfold rate_limit_run. rewrite foldl_snoc. reflexivity. Qed.

Lemma rate_limit_call_other {T} (expired : T -> T -> bool) max_requests
    (ip ip' : string) (now : T) storage :
  ip' <> ip ->
  (rate_limit_call expired max_requests ip now storage).1 !! ip' = storage !! ip'.
Proof.
  intros Hne. unfold rate_limit_call.
  destruct (_ >=? _); simpl; by rewrite lookup_insert_ne.
Qed.

(** X14: with a limit that is not negative, the store never holds more
    than [max_requests] times for a client, whatever the sequence of
    calls and whatever the clock. *)
Theorem rate_limit_store_bounded {T} (expired : T -> T -> bool)
    (max_requests : Z) (calls : list (string * T)) (ip : string) (q : list T) :
  0 <= max_requests ->
  rate_limit_run expired max_requests calls ∅ !! ip = Some q ->
  Z.of_nat (List.length q) <= max_requests.
Proof.
  intros Hmax. revert ip q.
  induction calls as [|[ip0 now] calls IH] using rev_ind; intros ip q Hq.
  - unfold rate_limit_run in Hq. simpl in Hq. rewrite lookup_empty in Hq.
    discriminate.
  - rewrite rate_limit_run_snoc in Hq.
    destruct (decide (ip = ip0)) as [->|Hne].
    + unfold rate_limit_call in Hq.
      set (st := rate_limit_run expired max_requests calls ∅) in *.
      set (kept := drop_expired expired now (default [] (st !! ip0))) in *.
      destruct (Z.geb_spec (Z.of_nat (List.length kept)) max_requests);
        simpl in Hq; rewrite lookup_insert_eq in Hq; inversion Hq; subst q.
      * assert (Z.of_nat (List.length (default [] (st !! ip0))) <= max_requests).
        { destruct (st !! ip0) as [old|] eqn:Eo; simpl; [|lia].
          apply (IH ip0 old Eo). }
        pose proof (drop_expired_length expired now (default [] (st !! ip0)))
          as Hlen.
        fold kept in Hlen. lia.
      * rewrite length_app. simpl. lia.
    + rewrite rate_limit_call_other in Hq by done. apply (IH ip q Hq).
Qed.

Lemma rate_limit_store_bounded_witness :
  Z.of_nat (List.length [65; 71]) <= 2.
Proof.
  apply (rate_limit_store_bounded expired_after_minute 2
           [("a", 0); ("a", 10); ("a", 20); ("b", 25); ("a", 65); ("a", 71)]%string
           "a"%string [65; 71]).
  - lia.
  - vm_compute. reflexivity.
Defined.


(** ** Submission tracking *)

Lemma tracker_run_snoc calls c :
  tracker_run (calls ++ [c]) = tracker_step (tracker_run calls) c.
Proof. unfold tracker_run. apply foldl_snoc. Qed.

Lemma tracker_step_size t c :
  (size (submissions (tracker_step t c)) <= S (size (submissions t)))%nat.
Proof.
  destruct c; simpl;
    match goal with
    | |- context [<[?i := ?x]> (submissions t)] =>
        destruct (submissions t !! i) eqn:E;
        [rewrite map_size_insert_Some by eauto | rewrite map_size_insert_None by done]
    end; lia.
Qed.

(** X16: after any sequence of calls on a fresh tracker, [success_count]
    and [error_count] are the numbers of [record_success] and
    [record_error] calls, and the number of tracked submissions is at
    most their sum; [get_stats] reports these three numbers. *)
Theorem tracker_counts (calls : list tracker_call) :
  let t := tracker_run calls in
  success_count t = Z.of_nat (List.length (filter (fun c => is_success_call c = true) calls)) /\
  error_count t = Z.of_nat (List.length (filter (fun c => is_success_call c = false) calls)) /\
  success_count t + error_count t = Z.of_nat (List.length calls) /\
  Z.of_nat (size (submissions t)) <= success_count t + error_count t /\
  (forall st, get_stats t = Ok st ->
     total_submissions st = Z.of_nat (size (submissions t)) /\
     stat_success_count st = success_count t /\
     stat_error_count st = error_count t /\
     total_submissions st <= stat_success_count st + stat_error_count st).
Proof.
  assert (Hinv :
    success_count (tracker_run calls)
      = Z.of_nat (List.length (filter (fun c => is_success_call c = true) calls)) /\
    error_count (tracker_run calls)
      = Z.of_nat (List.length (filter (fun c => is_success_call c = false) calls)) /\
    success_count (tracker_run calls) + error_count (tracker_run calls)
      = Z.of_nat (List.length calls) /\
    Z.of_nat (size (submissions (tracker_run calls)))
      <= success_count (tracker_run calls) + error_count (tracker_run calls)).
  { induction calls as [|c calls IH] using rev_ind.
    - unfold tracker_run. simpl. rewrite map_size_empty. repeat split; lia.
    - destruct IH as (Hs & He & Hsum & Hsize).
      rewrite tracker_run_snoc, !filter_app, !length_app.
      pose proof (tracker_step_size (tracker_run calls) c) as Hstep.
      destruct c as [i pt|i ty msg].
      + rewrite (filter_cons_True (fun c => is_success_call c = true)) by done.
        rewrite (filter_cons_False (fun c => is_success_call c = false)) by done.
        rewrite !filter_nil. cbn [tracker_step record_success success_count
          error_count List.length] in *. repeat split; lia.
      + rewrite (filter_cons_False (fun c => is_success_call c = true)) by done.
        rewrite (filter_cons_True (fun c => is_success_call c = false)) by done.
        rewrite !filter_nil. cbn [tracker_step record_error success_count
          error_count List.length] in *. repeat split; lia. }
  intros t. subst t. destruct Hinv as (Hs & He & Hsum & Hsize).
  repeat split; try assumption;
    unfold get_stats in H;
    destruct (round_double _ _); try discriminate;
    inversion H; subst; simpl; try reflexivity; lia.
Qed.

(** X17: the status kept for a submission is that of the last call made
    for it: [success] after [record_success], [error] after
    [record_error]; a submission for which no call was made is not
    tracked. *)
Theorem tracker_status_is_last_call (calls : list tracker_call) (i : Z) :
  match last (filter (fun c => call_id c = i) calls) with
  | Some c =>
      exists entry,
        submissions (tracker_run calls) !! i = Some entry /\
        entry !! "status"%string
        = Some (VStr (if is_success_call c then "success" else "error"))
  | None => submissions (tracker_run calls) !! i = None
  end.
Proof.
  induction calls as [|c calls IH] using rev_ind.
  - simpl. apply lookup_empty.
  - rewrite tracker_run_snoc, filter_app.
    destruct (decide (call_id c = i)) as [Hc|Hc].
    + rewrite (filter_cons_True (fun c => call_id c = i)) by exact Hc.
      rewrite filter_nil, last_snoc.
      destruct c as [j pt|j ty msg]; simpl in Hc; subst j; simpl;
        rewrite lookup_insert_eq; eexists; (split; [reflexivity|]);
        rewrite ?lookup_insert_ne by discriminate; apply lookup_insert_eq.
    + rewrite (filter_cons_False (fun c => call_id c = i)) by exact Hc.
      rewrite filter_nil, app_nil_r.
      assert (Hsame : submissions (tracker_step (tracker_run calls) c) !! i
                      = submissions (tracker_run calls) !! i).
      { destruct c; simpl in *; by rewrite lookup_insert_ne. }
      rewrite Hsame. exact IH.
Qed.

(** ** When the validator raises *)

Lemma overflows_truthy v : overflows v = true -> truthy v = true.
Proof.
  unfold overflows. destruct v as [| |n|f|s|l|d]; simpl; try discriminate.
  - destruct (Z.eqb_spec n 0) as [->|]; [vm_compute; discriminate | reflexivity].
  - destruct (parse_float s); discriminate.
Qed.

Lemma overflows_raises v : overflows v = true -> py_float v = Raise OverflowError.
Proof.
  unfold overflows. destruct (py_float v) as [|[]]; try discriminate. reflexivity.
Qed.

(** X18: the validator returns a result whenever the six text fields
    hold strings or falsy values and no numeric field is an integer
    beyond the range of doubles.  It does not turn every bad input into
    a field error: a truthy email that is not a string makes it raise
    [TypeError], and a monthly revenue beyond the range of doubles makes
    it raise [OverflowError]. *)
Theorem validator_raises_only_on_ill_typed (data : gmap string value) :
  (well_typed data = true -> exists r, validate_roi_submission data = Ok r) /\
  (truthy (dict_get data "email") = true ->
   is_str (dict_get data "email") = false ->
   validate_roi_submission data = Raise TypeError) /\
  (str_or_falsy (dict_get data "email") = true ->
   str_or_falsy (dict_get data "first_name") = true ->
   str_or_falsy (dict_get data "last_name") = true ->
   overflows (dict_get data "monthly_revenue") = true ->
   validate_roi_submission data = Raise OverflowError).
Proof.
  split; [apply validate_roi_submission_returns|]. split.
  - intros Ht Hs. unfold validate_roi_submission.
    cbn [for_each required_fields]. repeat run_step.
    unfold check_email. rewrite Ht.
    destruct (dict_get data "email"); try discriminate; reflexivity.
  - intros He Hf Hl Ho. unfold validate_roi_submission.
    cbn [for_each required_fields financial_fields]. repeat run_step.
    unfold check_financial.
    rewrite (overflows_truthy _ Ho), (overflows_raises _ Ho). reflexivity.
Qed.

Lemma validator_raises_only_on_ill_typed_witness :
  validate_roi_submission (submission_with_revenue (VInt (10 ^ 400)))
  = Raise OverflowError.
Proof.
  apply (proj2 (proj2 (validator_raises_only_on_ill_typed
                         (submission_with_revenue (VInt (10 ^ 400))))));
    vm_compute; reflexivity.
Defined.
